(** * django_structure_scanner: a shallow embedding and its properties

    The development follows [src/django_structure_scanner.py]:
    [parse_code], [get_node_line_numbers], [extract_functions_classes],
    [find_imports_and_relations] and [generate_project_structure_json].

    Python values are modelled as the script uses them: integers as [Z],
    text as [string], the syntax tree as a rose tree whose nodes carry the
    attributes the script reads, raised exceptions as an error monad, and the
    operating system (file contents, directory listings, the clock) as a
    record of functions the script consults. *)

From Stdlib Require Import List ZArith Lia Bool String Ascii Permutation.
From Equations Require Import Equations.
Import ListNotations.

Set Warnings "-register-all".
Local Open Scope string_scope.
Local Open Scope list_scope.
Local Open Scope Z_scope.

(** ** Exceptions *)

Module Py.

(** The exception classes that can reach the script's [except] clauses. *)
Inductive exn : Type :=
| SyntaxError
| UnicodeDecodeError
| OSError
| AttributeError
| IndexError.

Inductive result (A : Type) : Type :=
| Ok (a : A)
| Raise (e : exn).
Arguments Ok {A} a.
Arguments Raise {A} e.

Definition bind {A B} (m : result A) (k : A -> result B) : result B :=
  match m with
  | Ok a => k a
  | Raise e => Raise e
  end.

Definition exn_eqb (a b : exn) : bool :=
  match a, b with
  | SyntaxError, SyntaxError
  | UnicodeDecodeError, UnicodeDecodeError
  | OSError, OSError
  | AttributeError, AttributeError
  | IndexError, IndexError => true
  | _, _ => false
  end.

(** [try: body except (e1, ..., en): handler]. *)
Definition try_except {A} (body : result A) (caught : list exn)
           (handler : result A) : result A :=
  match body with
  | Ok a => Ok a
  | Raise e => if existsb (exn_eqb e) caught then handler else Raise e
  end.

(** [for x in xs: body], threading the loop's variables as [s]. *)
Fixpoint for_each {A S} (xs : list A) (body : S -> A -> result S) (s : S)
  : result S :=
  match xs with
  | [] => Ok s
  | x :: rest => bind (body s x) (for_each rest body)
  end.

(** [l[i]] on a Python list: negative indices count from the end. *)
Definition getitem {A} (l : list A) (i : Z) : result A :=
  let n := Z.of_nat (List.length l) in
  let j := if i <? 0 then i + n else i in
  if (0 <=? j) && (j <? n) then
    match nth_error l (Z.to_nat j) with
    | Some x => Ok x
    | None => Raise IndexError
    end
  else Raise IndexError.

(** [len(s)] of a string. *)
Definition len (s : string) : Z := Z.of_nat (String.length s).

(** [s.split('\n')]. *)
Fixpoint split_lines (s : string) : list string :=
  match s with
  | EmptyString => [EmptyString]
  | String c rest =>
      if Ascii.eqb c "010"%char then EmptyString :: split_lines rest
      else match split_lines rest with
           | [] => [String c EmptyString]
           | l :: ls => String c l :: ls
           end
  end.

(** [needle in haystack] on strings. *)
Fixpoint contains (haystack needle : string) : bool :=
  if String.prefix needle haystack then true
  else match haystack with
       | EmptyString => false
       | String _ rest => contains rest needle
       end.

End Py.

Import Py.

Notation "x <- m ;; k" := (bind m (fun x => k))
  (at level 61, m at next level, right associativity).
Notation "' pat <- m ;; k" := (bind m (fun x => match x with pat => k end))
  (at level 61, pat pattern, m at next level, right associativity).

(** ** The syntax tree *)

(** The position attributes of a statement node.  [lineno] is always set on
    the nodes the script passes to [get_node_line_numbers]; the other three
    are read behind [hasattr], so each may be missing. *)
Record position : Type := Position {
  lineno : Z;
  end_lineno : option Z;
  col_offset : option Z;
  end_col_offset : option Z
}.

(** An [ast.alias]: one target of an import statement. *)
Record alias : Type := Alias {
  alias_name : string;
  asname : option string
}.

Inductive node_kind : Type :=
| FunctionDef (name : string) (pos : position)
| AsyncFunctionDef (name : string) (pos : position)
| ClassDef (name : string) (pos : position)
| Import (names : list alias)
| ImportFrom (module : option string) (names : list alias)
| OtherNode.

(** A node is an object ([nid] is its identity, what [is] compares), a kind
    and the list [ast.iter_child_nodes] yields for it. *)
Inductive node : Type :=
| Node (nid : nat) (kind : node_kind) (children : list node).

Definition nid (n : node) : nat := match n with Node i _ _ => i end.
Definition kind (n : node) : node_kind := match n with Node _ k _ => k end.
Definition children (n : node) : list node :=
  match n with Node _ _ cs => cs end.

(** [isinstance] tests. *)
Definition is_function_like (n : node) : bool :=
  match kind n with
  | FunctionDef _ _ | AsyncFunctionDef _ _ => true
  | _ => false
  end.

Definition is_class (n : node) : bool :=
  match kind n with ClassDef _ _ => true | _ => false end.

Definition is_declaration (n : node) : bool :=
  is_function_like n || is_class n.

Definition is_async_def (n : node) : bool :=
  match kind n with AsyncFunctionDef _ _ => true | _ => false end.

Definition is_import (n : node) : bool :=
  match kind n with Import _ | ImportFrom _ _ => true | _ => false end.

(** [child_node != node]: AST nodes compare by identity. *)
Definition same_object (a b : node) : bool := Nat.eqb (nid a) (nid b).

(** [node.name] and the position attributes, for declaration nodes. *)
Definition node_name (n : node) : string :=
  match kind n with
  | FunctionDef s _ | AsyncFunctionDef s _ | ClassDef s _ => s
  | _ => ""
  end.

Definition node_pos (n : node) : position :=
  match kind n with
  | FunctionDef _ p | AsyncFunctionDef _ p | ClassDef _ p => p
  | _ => Position 0 None None None
  end.

(** All nodes of a tree in source (pre-)order, and its strict descendants. *)
Fixpoint all_nodes (n : node) : list node :=
  match n with
  | Node _ _ cs => n :: flat_map all_nodes cs
  end.

Definition descendants (n : node) : list node :=
  flat_map all_nodes (children n).

Fixpoint node_size (n : node) : nat :=
  match n with
  | Node _ _ cs => S (list_sum (map node_size cs))
  end.

Definition queue_size (q : list node) : nat := list_sum (map node_size q).

(** [ast.walk]: a queue seeded with the root; each step pops the leftmost
    node, appends its children and yields it. *)
Equations? walk_queue (todo : list node) : list node
  by wf (queue_size todo) lt :=
  walk_queue [] := [];
  walk_queue (n :: todo) := n :: walk_queue (todo ++ children n).
Proof.
  unfold queue_size. rewrite map_app, list_sum_app.
  destruct n as [i k cs]. simpl. lia.
Qed.

Definition walk (n : node) : list node := walk_queue [n].

(** ** Output records *)

(** The [location] dictionary. *)
Record location : Type := Location {
  line_start : Z;
  line_end : Z;
  col_start : Z;
  col_end : Z
}.

(** An entry of a class's ["methods"] list. *)
Record method_record : Type := MethodRecord {
  m_name : string;
  m_is_async : bool;
  m_location : location
}.

Inductive item_type : Type := Class | Function.

(** An entry of a file's ["items"] list.  A class entry has no ["is_async"]
    key, hence the option. *)
Record item : Type := Item {
  i_type : item_type;
  i_name : string;
  i_is_async : option bool;
  i_location : location;
  i_methods : list method_record
}.

(** An entry of a file's ["imports"] list: [{"type": "import", module,
    name}] or [{"type": "importfrom", module, name, asname}]. *)
Inductive import_record : Type :=
| PlainImport (module name : string)
| FromImport (module name : string) (asname : option string).

(** ** get_node_line_numbers *)

Definition get_node_line_numbers (node : position)
           (source_lines : list string) : result location :=
  let line_start := lineno node in
  '(line_end, col_start, col_end) <-
    try_except
      (let line_end :=
         match end_lineno node with Some e => e | None => lineno node end in
       let col_start :=
         match col_offset node with Some c => c | None => 0 end in
       col_end <-
         match end_col_offset node with
         | Some c => Ok c
         | None => line <- getitem source_lines (line_end - 1) ;; Ok (len line)
         end ;;
       Ok (line_end, col_start, col_end))
      [AttributeError; IndexError]
      (Ok (line_start, 0, 0)) ;;
  Ok (Location line_start line_end col_start col_end).

(** ** extract_functions_classes *)

(** [source.split('\n') if source else []]. *)
Definition source_lines_of (source : option string) : list string :=
  match source with
  | None | Some EmptyString => []
  | Some s => split_lines s
  end.

(** The inner loop: the methods of the class [node]. *)
Definition collect_methods (source_lines : list string) (node : node)
  : result (list method_record) :=
  for_each (walk node)
    (fun methods child_node =>
       if is_function_like child_node && negb (same_object child_node node)
       then
         method_location <-
           get_node_line_numbers (node_pos child_node) source_lines ;;
         Ok (methods ++ [MethodRecord (node_name child_node)
                                      (is_async_def child_node)
                                      method_location])
       else Ok methods)
    [].

Definition extract_functions_classes (tree : option node)
           (source : option string) : result (list item) :=
  match tree with
  | None => Ok []
  | Some tree =>
      let source_lines := source_lines_of source in
      for_each (walk tree)
        (fun nodes node =>
           if is_declaration node then
             location <- get_node_line_numbers (node_pos node) source_lines ;;
             if is_class node then
               methods <- collect_methods source_lines node ;;
               Ok (nodes ++ [Item Class (node_name node) None location
                                  methods])
             else
               Ok (nodes ++ [Item Function (node_name node)
                                  (Some (is_async_def node)) location []])
           else Ok nodes)
        []
  end.

(** ** find_imports_and_relations *)

(** [a or b] on an optional string: [None] and the empty string are falsy. *)
Definition str_or (a : option string) (b : string) : string :=
  match a with
  | None | Some EmptyString => b
  | Some s => s
  end.

Definition find_imports_and_relations {P : Type} (tree : option node)
           (source : option string) (file_path : P)
  : result (list import_record) :=
  match tree with
  | None => Ok []
  | Some tree =>
      for_each (walk tree)
        (fun imports node =>
           match kind node with
           | Import names =>
               for_each names
                 (fun imports name =>
                    Ok (imports ++ [PlainImport (alias_name name)
                                      (str_or (asname name)
                                              (alias_name name))]))
                 imports
           | ImportFrom module names =>
               let module := str_or module "" in
               for_each names
                 (fun imports name =>
                    Ok (imports ++ [FromImport module (alias_name name)
                                               (asname name)]))
                 imports
           | _ => Ok imports
           end)
        []
  end.

(** ** The operating system and the parser *)

(** A relative [pathlib.Path], by its parts. *)
Definition path : Type := list string.

(** [str(p)]. *)
Definition path_str (p : path) : string :=
  match p with
  | [] => "."
  | _ => String.concat "/" p
  end.

(** [p.name]: the final component. *)
Definition path_name (p : path) : string := last p "".

(** What the script asks of its environment. *)
Record world : Type := World {
  (** [datetime.now().isoformat()] *)
  now_isoformat : string;
  (** [list(app_path.rglob("*.py"))] *)
  rglob_py : path -> list path;
  (** [str(py_file.resolve())] *)
  resolve : path -> string;
  (** [open(file_path, "r", encoding="utf-8")] followed by [f.read()]:
      the text, [OSError] or [UnicodeDecodeError] *)
  open_read : path -> result string;
  (** [ast.parse(source)]: the tree or [SyntaxError] *)
  ast_parse : string -> result node;
  (** whether [open(output_file, "w")] succeeds *)
  open_write : string -> bool
}.

(** ** parse_code *)

Definition parse_code (w : world) (file_path : path)
  : result (option node * option string) :=
  try_except
    (source <- open_read w file_path ;;
     tree <- ast_parse w source ;;
     Ok (Some tree, Some source))
    [SyntaxError; UnicodeDecodeError]
    (Ok (None, None)).

(** ** generate_project_structure_json *)

Record file_data : Type := FileData {
  f_name : string;
  f_relative_path : string;
  f_absolute_path : string;
  f_items : list item;
  f_imports : list import_record
}.

Record app_data : Type := AppData {
  a_name : string;
  a_path : string;
  a_files : list file_data
}.

Record project_data : Type := ProjectData {
  generated_at : string;
  apps : list app_data
}.

(** The test guarding [continue] in the file loop. *)
Definition is_skipped (py_file : path) : bool :=
  contains (path_str py_file) "migrations"
  && negb (String.eqb (path_name py_file) "__init__.py").

(** The body of the file loop after the [continue] test.  Paths are
    relative to the working directory, so [relative_to(Path('.'))] leaves
    them as they are. *)
Definition scan_file (w : world) (py_file : path) : result file_data :=
  let relative_path := path_str py_file in
  let absolute_path := resolve w py_file in
  '(tree, source) <- parse_code w py_file ;;
  items <- extract_functions_classes tree source ;;
  imports <- find_imports_and_relations tree source py_file ;;
  Ok (FileData (path_name py_file) relative_path absolute_path items imports).

Definition scan_files (w : world) (py_files : list path)
  : result (list file_data) :=
  for_each py_files
    (fun files py_file =>
       if is_skipped py_file then Ok files
       else
         file_data <- scan_file w py_file ;;
         Ok (files ++ [file_data]))
    [].

(** The result is [None] for the bare [return], the model otherwise; the
    model is returned after it has been written to [output_file].  The
    messages printed on the console are left out. *)
Definition generate_project_structure_json (w : world)
           (app_paths : list path) (output_file : string)
  : result (option project_data) :=
  let generated_at := now_isoformat w in
  match app_paths with
  | [] => Ok None
  | _ =>
      apps <-
        for_each app_paths
          (fun apps app_path =>
             let py_files := rglob_py w app_path in
             files <- scan_files w py_files ;;
             Ok (apps ++ [AppData (path_name app_path) (path_str app_path)
                                  files]))
          [] ;;
      if open_write w output_file
      then Ok (Some (ProjectData generated_at apps))
      else Raise OSError
  end.

(** ** find_django_apps *)

(** [s.rfind(c)]: the index of the last occurrence, if any. *)
Fixpoint rfind (s : string) (c : ascii) : option nat :=
  match s with
  | EmptyString => None
  | String a rest =>
      match rfind rest c with
      | Some i => Some (S i)
      | None => if Ascii.eqb a c then Some O else None
      end
  end.

(** [PurePath.suffix] computed from the final component: the text from the
    last dot on, provided that dot is neither the first nor the last
    character. *)
Definition suffix (name : string) : string :=
  match rfind name "."%char with
  | Some i =>
      if (0 <? i)%nat && (i <? String.length name - 1)%nat
      then substring i (String.length name - i) name
      else ""
  | None => ""
  end.

(** [s.startswith(p)]. *)
Definition startswith (s p : string) : bool := String.prefix p s.

(** [p.parent]. *)
Definition parent (p : path) : path := removelast p.

(** What [find_django_apps] asks of the directory tree below the working
    directory. *)
Record directory_tree : Type := DirectoryTree {
  (** [list(Path('.').rglob(pattern))] *)
  rglob : string -> list path;
  (** the entry names of a directory, or the error listing it raises *)
  listdir : path -> result (list string);
  is_dir : path -> bool;
  is_file : path -> bool
}.

(** [p.iterdir()]: the entries of [p], each joined to [p]. *)
Definition iterdir (d : directory_tree) (p : path) : result (list path) :=
  names <- listdir d p ;; Ok (map (fun n => p ++ [n]) names).

(** The test of the fallback loop on one entry of the working directory. *)
Definition is_candidate (d : directory_tree) (dir_path : path) : bool :=
  is_dir d dir_path
  && negb (startswith (path_name dir_path) ".")
  && negb (startswith (path_name dir_path) "__").

(** [file.is_file() and file.suffix == '.py']. *)
Definition is_py_file (d : directory_tree) (file : path) : bool :=
  is_file d file && String.eqb (suffix (path_name file)) ".py".

Definition find_django_apps (d : directory_tree) : result (list path) :=
  let current_dir : path := [] in
  let settings_files := rglob d "settings.py" in
  match settings_files with
  | [] => Ok []
  | _ =>
      let django_apps := map parent (rglob d "apps.py") in
      match django_apps with
      | [] =>
          entries <- iterdir d current_dir ;;
          for_each entries
            (fun django_apps dir_path =>
               if is_candidate d dir_path then
                 files <- iterdir d dir_path ;;
                 let has_py_files := existsb (is_py_file d) files in
                 if has_py_files then Ok (django_apps ++ [dir_path])
                 else Ok django_apps
               else Ok django_apps)
            []
      | _ => Ok django_apps
      end
  end.

(** What one iteration of the fallback loop appends. *)
Definition fallback_step (d : directory_tree) (dir_path : path)
  : result (list path) :=
  if is_candidate d dir_path then
    files <- iterdir d dir_path ;;
    if existsb (is_py_file d) files then Ok [dir_path] else Ok []
  else Ok [].

(** ** The script's entry point *)

Definition main (d : directory_tree) (w : world)
  : result (option project_data) :=
  apps <- find_django_apps d ;;
  let output_filename := "django_project_structure.json" in
  generate_project_structure_json w apps output_filename.

(** ** What the loops compute *)

(** The span [get_node_line_numbers] settles on. *)
Definition span_of (p : position) (source_lines : list string) : location :=
  let line_end :=
    match end_lineno p with Some e => e | None => lineno p end in
  let col_start := match col_offset p with Some c => c | None => 0 end in
  match end_col_offset p with
  | Some c => Location (lineno p) line_end col_start c
  | None =>
      match getitem source_lines (line_end - 1) with
      | Ok line => Location (lineno p) line_end col_start (len line)
      | Raise _ => Location (lineno p) (lineno p) 0 0
      end
  end.

(** The line the fallback looks up. *)
Definition fallback_line (p : position) : Z :=
  match end_lineno p with Some e => e | None => lineno p end.

(** The method entry built for a function node. *)
Definition method_of (source_lines : list string) (n : node)
  : method_record :=
  MethodRecord (node_name n) (is_async_def n)
               (span_of (node_pos n) source_lines).

(** The nodes the inner loop keeps for the class [cls]. *)
Definition is_method_of (cls child : node) : bool :=
  is_function_like child && negb (same_object child cls).

Definition methods_of (source_lines : list string) (cls : node)
  : list method_record :=
  map (method_of source_lines) (filter (is_method_of cls) (walk cls)).

(** The item built for a declaration node. *)
Definition item_of (source_lines : list string) (n : node) : item :=
  if is_class n then
    Item Class (node_name n) None (span_of (node_pos n) source_lines)
         (methods_of source_lines n)
  else
    Item Function (node_name n) (Some (is_async_def n))
         (span_of (node_pos n) source_lines) [].

(** The import entries built for one node. *)
Definition imports_of (n : node) : list import_record :=
  match kind n with
  | Import names =>
      map (fun a => PlainImport (alias_name a)
                                (str_or (asname a) (alias_name a))) names
  | ImportFrom module names =>
      map (fun a => FromImport (str_or module "") (alias_name a) (asname a))
          names
  | _ => []
  end.

(** The aliases of an import statement. *)
Definition import_names (n : node) : list alias :=
  match kind n with
  | Import names | ImportFrom _ names => names
  | _ => []
  end.

(** No two distinct objects of the tree share an identity. *)
Definition distinct_objects (t : node) : Prop :=
  forall a b, In a (all_nodes t) -> In b (all_nodes t) ->
              nid a = nid b -> a = b.

(** A loop whose body appends to its accumulator: the entries one
    iteration appends, collected over the whole list. *)
Fixpoint collect {A B} (step : A -> result (list B)) (xs : list A)
  : result (list B) :=
  match xs with
  | [] => Ok []
  | x :: rest =>
      r <- step x ;;
      rs <- collect step rest ;;
      Ok (r ++ rs)
  end.

(** The nodes at depth [d] below the queue [q], left to right, and the
    first [k] depths one after the other. *)
Fixpoint level (d : nat) (q : list node) : list node :=
  match d with
  | O => q
  | S d' => level d' (flat_map children q)
  end.

Definition levels_upto (k : nat) (q : list node) : list node :=
  flat_map (fun d => level d q) (seq 0 k).

(** What one iteration of the app loop appends. *)
Definition app_step (w : world) (app_path : path) : result (list app_data) :=
  files <- scan_files w (rglob_py w app_path) ;;
  Ok [AppData (path_name app_path) (path_str app_path) files].

(** A file record is the scan of the file [f]. *)
Definition record_of_file (w : world) (f : path) (fd : file_data) : Prop :=
  scan_file w f = Ok fd /\
  f_name fd = path_name f /\
  f_relative_path fd = path_str f /\
  f_absolute_path fd = resolve w f.

(** An app record is the scan of the root [r]: its files are the records of
    the files found under [r] that are not skipped, in enumeration order. *)
Definition record_of_root (w : world) (r : path) (a : app_data) : Prop :=
  a_name a = path_name r /\
  a_path a = path_str r /\
  Forall2 (record_of_file w)
          (filter (fun f => negb (is_skipped f)) (rglob_py w r))
          (a_files a).

(** The file lies below a directory called [migrations]. *)
Definition under_migrations_dir (py_file : path) : bool :=
  existsb (String.eqb "migrations") (removelast py_file).

(** The filter as the specification words it. *)
Definition excluded_by_policy (py_file : path) : bool :=
  under_migrations_dir py_file
  && negb (String.eqb (path_name py_file) "__init__.py").

(** What one iteration of the file loop appends. *)
Definition file_step (w : world) (py_file : path) : result (list file_data) :=
  if is_skipped py_file then Ok []
  else file_data <- scan_file w py_file ;; Ok [file_data].

(** The record of a file that contributed nothing. *)
Definition empty_record (w : world) (p : path) : file_data :=
  FileData (path_name p) (path_str p) (resolve w p) [] [].

(** ** Sample inputs *)

Module Samples.

(** A method found on line 2 by a parser that records start positions only. *)
Definition indented_def : position := Position 2 None (Some 4) None.

Definition two_lines : list string :=
  ["class A:"; "    def f(self): pass"].


(** [import a; from b import c as d; import e as f], one statement per
    line; each alias is a child node of its statement. *)
Definition three_imports : node :=
  Node 0 OtherNode
    [Node 1 (Import [Alias "a" None]) [Node 2 OtherNode []];
     Node 3 (ImportFrom (Some "b") [Alias "c" (Some "d")])
          [Node 4 OtherNode []];
     Node 5 (Import [Alias "e" (Some "f")]) [Node 6 OtherNode []]].

(** [def f(): import a] followed by a top-level [import b]. *)
Definition nested_import : node :=
  Node 0 OtherNode
    [Node 1 (FunctionDef "f" (Position 1 (Some 2) (Some 0) (Some 12)))
          [Node 2 OtherNode [];
           Node 3 (Import [Alias "a" None]) [Node 4 OtherNode []]];
     Node 5 (Import [Alias "b" None]) [Node 6 OtherNode []]].

(** [class Foo: def bar(self): pass] followed by [def baz(): pass]. *)
Definition views_source : string :=
  String.concat (String "010" "")
    ["class Foo:"; "    def bar(self): pass"; "def baz(): pass"].

Definition bar_def : node :=
  Node 2 (FunctionDef "bar" (Position 2 (Some 2) (Some 4) (Some 23)))
       [Node 3 OtherNode []].

Definition foo_class : node :=
  Node 1 (ClassDef "Foo" (Position 1 (Some 2) (Some 0) (Some 23))) [bar_def].

Definition views_tree : node :=
  Node 0 OtherNode
    [foo_class;
     Node 4 (FunctionDef "baz" (Position 3 (Some 3) (Some 0) (Some 15)))
          [Node 5 OtherNode []]].

End Samples.

Module Worlds.

(** A parser that knows one file. *)
Definition toy_parse (s : string) : result node :=
  if String.eqb s Samples.views_source then Ok Samples.views_tree
  else if String.eqb s "" then Ok (Node 0 OtherNode [])
  else Raise SyntaxError.

Definition path_eqb (p q : path) : bool :=
  if list_eq_dec string_dec p q then true else false.

(** One app, [shop], with a views module, migrations and a test module. *)
Definition shop_files : list path :=
  [["shop"; "views.py"];
   ["shop"; "migrations"; "0001_initial.py"];
   ["shop"; "migrations"; "__init__.py"];
   ["shop"; "test_migrations.py"]].

Definition shop (now : string) : world :=
  World now
        (fun app => if path_eqb app ["shop"] then shop_files else [])
        (fun p => "/srv/" ++ path_str p)%string
        (fun p => if path_eqb p ["shop"; "views.py"]
                  then Ok Samples.views_source else Ok "")
        toy_parse
        (fun _ => true).

(** The same app where [models.py] cannot be read. *)
Definition unreadable : world :=
  World "2024-01-01T00:00:00"
        (fun _ => [["shop"; "models.py"]; ["shop"; "views.py"]])
        (fun p => "/srv/" ++ path_str p)%string
        (fun p => if path_eqb p ["shop"; "models.py"]
                  then Raise OSError else Ok Samples.views_source)
        toy_parse
        (fun _ => true).

(** The same app where [models.py] is not valid Python and [views.py] is
    not valid UTF-8. *)
Definition unparsable : world :=
  World "2024-01-01T00:00:00"
        (fun _ => [["shop"; "models.py"]; ["shop"; "views.py"]])
        (fun p => "/srv/" ++ path_str p)%string
        (fun p => if path_eqb p ["shop"; "models.py"]
                  then Ok "def (" else Raise UnicodeDecodeError)
        toy_parse
        (fun _ => true).

End Worlds.

Module Trees.

(** A project with a settings module and two apps carrying [apps.py]. *)
Definition project : directory_tree :=
  DirectoryTree
    (fun pattern =>
       if String.eqb pattern "settings.py" then [["mysite"; "settings.py"]]
       else if String.eqb pattern "apps.py"
            then [["shop"; "apps.py"]; ["site"; "blog"; "apps.py"]]
            else [])
    (fun _ => Raise OSError)
    (fun _ => true)
    (fun _ => false).

(** A project without any [apps.py]: the working directory holds [shop]
    (with a module), [.git], [__pycache__], [docs] (no module) and
    [manage.py]. *)
Definition plain : directory_tree :=
  DirectoryTree
    (fun pattern =>
       if String.eqb pattern "settings.py" then [["settings.py"]] else [])
    (fun p =>
       if Worlds.path_eqb p [] then
         Ok ["shop"; ".git"; "__pycache__"; "docs"; "manage.py"]
       else if Worlds.path_eqb p ["shop"] then Ok ["views.py"; "README"]
       else if Worlds.path_eqb p ["docs"] then Ok ["index.md"; ".py"]
       else Raise OSError)
    (fun p => negb (Worlds.path_eqb p ["manage.py"])
              && Nat.eqb (List.length p) 1)
    (fun p => Worlds.path_eqb p ["manage.py"]
              || Nat.eqb (List.length p) 2).

(** A directory tree without [settings.py]. *)
Definition bare : directory_tree :=
  DirectoryTree
    (fun pattern =>
       if String.eqb pattern "apps.py" then [["shop"; "apps.py"]] else [])
    (fun _ => Raise OSError)
    (fun _ => true)
    (fun _ => false).

End Trees.

Module Nested.

(** [class Outer:] holding [class Inner:] holding [def m(self): pass],
    with [import os] inside the method. *)
Definition method_m : node :=
  Node 3 (FunctionDef "m" (Position 3 (Some 4) (Some 8) (Some 17)))
       [Node 4 (Import [Alias "os" None; Alias "sys" (Some "s")]) []].

Definition inner : node :=
  Node 2 (ClassDef "Inner" (Position 2 (Some 4) (Some 4) (Some 17)))
       [method_m].

Definition outer : node :=
  Node 1 (ClassDef "Outer" (Position 1 (Some 4) (Some 0) (Some 17))) [inner].

Definition tree : node := Node 0 OtherNode [outer].

End Nested.

(** The same tree allocated elsewhere: every object gets the identity [f]
    assigns to it. *)
Fixpoint renumber (f : nat -> nat) (n : node) : node :=
  match n with
  | Node i k cs => Node (f i) k (map (renumber f) cs)
  end.

(** A tree with its identities erased. *)
Definition strip_ids (n : node) : node := renumber (fun _ => O) n.

(** Two trees that differ at most in the identities of their objects. *)
Definition same_up_to_identity (t1 t2 : node) : Prop :=
  strip_ids t1 = strip_ids t2.

(** The method entries of the function nodes met below a node. *)
Definition methods_below (source_lines : list string) (cls : node)
  : list method_record :=
  map (method_of source_lines)
      (filter is_function_like (walk_queue (children cls))).

(** The item of a declaration node, read off its kind and what lies below
    it. *)
Definition item_by_shape (source_lines : list string) (n : node) : item :=
  if is_class n then
    Item Class (node_name n) None (span_of (node_pos n) source_lines)
         (methods_below source_lines n)
  else
    Item Function (node_name n) (Some (is_async_def n))
         (span_of (node_pos n) source_lines) [].

(** What two runs of the parser on the text [s] share: the same failure, or
    trees of distinct objects that differ at most in the identities. *)
Definition parsers_agree (w1 w2 : world) (s : string) : Prop :=
  match ast_parse w1 s, ast_parse w2 s with
  | Ok t1, Ok t2 =>
      same_up_to_identity t1 t2 /\ distinct_objects t1 /\ distinct_objects t2
  | Raise e1, Raise e2 => e1 = e2
  | _, _ => False
  end.

(** Two runs that end alike: the same exception, no model in both, or
    models with the same apps. *)
Definition same_outcome (r1 r2 : result (option project_data)) : Prop :=
  match r1, r2 with
  | Ok (Some m1), Ok (Some m2) => apps m1 = apps m2
  | Ok None, Ok None => True
  | Raise e1, Raise e2 => e1 = e2
  | _, _ => False
  end.

Module Rerun.

(** The toy parser on a later run: the same trees at other addresses. *)
Definition toy_parse (s : string) : result node :=
  t <- Worlds.toy_parse s ;; Ok (renumber (fun i => (i + 100)%nat) t).

(** The [shop] project scanned again at another time. *)
Definition shop : world :=
  World "2025-06-30T12:00:00"
        (rglob_py (Worlds.shop "now"))
        (resolve (Worlds.shop "now"))
        (open_read (Worlds.shop "now"))
        toy_parse
        (fun _ => true).

End Rerun.

Module Unread.

(** The [shop] project with a migration file that cannot be read. *)
Definition shop_locked_migration : world :=
  World "now"
        (rglob_py (Worlds.shop "now"))
        (resolve (Worlds.shop "now"))
        (fun p =>
           if Worlds.path_eqb p ["shop"; "migrations"; "0001_initial.py"]
           then Raise OSError
           else open_read (Worlds.shop "now") p)
        Worlds.toy_parse
        (fun _ => true).

End Unread.

(** [c in s] for a character. *)
Fixpoint mentions (c : ascii) (s : string) : bool :=
  match s with
  | EmptyString => false
  | String a rest => Ascii.eqb a c || mentions c rest
  end.

(** [s.count(c)] for a character. *)
Fixpoint count_char (c : ascii) (s : string) : nat :=
  match s with
  | EmptyString => O
  | String a rest => (if Ascii.eqb a c then 1 else 0) + count_char c rest
  end.

(** * Properties *)

(** ** Loops *)

Section Loops.
Context {A B : Type}.
Variable step : A -> result (list B).
Variable body : list B -> A -> result (list B).
Hypothesis body_appends :
  forall acc x, body acc x = (r <- step x ;; Ok (acc ++ r)).

Lemma for_each_collect xs acc :
  for_each xs body acc = (rs <- collect step xs ;; Ok (acc ++ rs)).
Proof.
  revert acc. induction xs as [|x xs IH]; intros acc; simpl.
  - now rewrite app_nil_r.
  - rewrite body_appends. destruct (step x) as [r|e]; simpl; [|reflexivity].
    rewrite IH. destruct (collect step xs) as [rs|e]; simpl; [|reflexivity].
    now rewrite app_assoc.
Qed.

Lemma for_each_cons x xs :
  for_each (x :: xs) body [] =
  (r <- step x ;; rs <- for_each xs body [] ;; Ok (r ++ rs)).
Proof.
  rewrite !for_each_collect. simpl.
  destruct (step x) as [r|e]; simpl; [|reflexivity].
  destruct (collect step xs) as [rs|e]; reflexivity.
Qed.
End Loops.

Lemma collect_total {A B} (f : A -> list B) step xs :
  (forall x, step x = Ok (f x)) -> collect step xs = Ok (flat_map f xs).
Proof.
  intros Hstep. induction xs as [|x xs IH]; simpl; [reflexivity|].
  now rewrite Hstep, IH.
Qed.

Lemma for_each_total {A B} (f : A -> list B) body xs :
  (forall acc x, body acc x = Ok (acc ++ f x)) ->
  for_each xs body [] = Ok (flat_map f xs).
Proof.
  intros Hbody.
  rewrite (for_each_collect (fun x => Ok (f x)) body) by (intros; apply Hbody).
  now rewrite (collect_total f).
Qed.

Lemma flat_map_singleton_filter {A B} (f : A -> B) (p : A -> bool) xs :
  flat_map (fun x => if p x then [f x] else []) xs = map f (filter p xs).
Proof.
  induction xs as [|x xs IH]; simpl; [reflexivity|].
  destruct (p x); simpl; now rewrite IH.
Qed.

Lemma flat_map_nil {A B} (f : A -> list B) xs :
  (forall x, In x xs -> f x = []) -> flat_map f xs = [].
Proof.
  induction xs as [|x xs IH]; intros H; simpl; [reflexivity|].
  rewrite H by now left. apply IH. intros y Hy. apply H. now right.
Qed.

Lemma Permutation_filter_fun {A} (p : A -> bool) xs ys :
  Permutation xs ys -> Permutation (filter p xs) (filter p ys).
Proof.
  induction 1; simpl.
  - constructor.
  - destruct (p x); [constructor|]; assumption.
  - destruct (p x), (p y); try reflexivity. constructor.
  - etransitivity; eassumption.
Qed.

(** ** The tree and its traversal *)

Lemma node_forall_ind (P : node -> Prop) :
  (forall i k cs, Forall P cs -> P (Node i k cs)) -> forall n, P n.
Proof.
  intros step. fix IH 1. intros [i k cs]. apply step.
  induction cs as [|c cs IHcs]; constructor; [apply IH | exact IHcs].
Qed.

Lemma all_nodes_unfold n : all_nodes n = n :: descendants n.
Proof. destruct n; reflexivity. Qed.

Lemma descendants_all_nodes n d : In d (descendants n) -> In d (all_nodes n).
Proof. rewrite all_nodes_unfold. now right. Qed.

Lemma all_nodes_trans t : forall c d,
  In c (all_nodes t) -> In d (all_nodes c) -> In d (all_nodes t).
Proof.
  induction t as [i k cs IH] using node_forall_ind. intros c d Hc Hd.
  rewrite all_nodes_unfold in Hc. destruct Hc as [<-|Hc]; [assumption|].
  rewrite all_nodes_unfold. right. unfold descendants in *. simpl in *.
  apply in_flat_map in Hc as (c0 & Hc0 & Hc).
  apply in_flat_map. exists c0. split; [assumption|].
  rewrite Forall_forall in IH. eapply IH; eassumption.
Qed.

(** The queue discipline yields the queue first and then the traversal of
    everything its nodes put behind it. *)
Lemma walk_queue_app q : forall rest,
  walk_queue (q ++ rest) = q ++ walk_queue (rest ++ flat_map children q).
Proof.
  induction q as [|n q IH]; intros rest; simpl.
  - now rewrite app_nil_r.
  - simp walk_queue. rewrite <- app_assoc, IH, <- app_assoc. reflexivity.
Qed.

Lemma walk_queue_level q :
  walk_queue q = q ++ walk_queue (flat_map children q).
Proof. rewrite <- (app_nil_r q) at 1. now rewrite walk_queue_app. Qed.

Lemma flat_map_after_map {A B C} (g : A -> B) (f : B -> list C) xs :
  flat_map f (map g xs) = flat_map (fun x => f (g x)) xs.
Proof.
  induction xs as [|x xs IH]; simpl; [reflexivity|]. now rewrite IH.
Qed.

Lemma levels_upto_succ k q :
  levels_upto (S k) q = q ++ levels_upto k (flat_map children q).
Proof.
  unfold levels_upto. cbn [seq flat_map level].
  now rewrite <- seq_shift, flat_map_after_map.
Qed.

(** The traversal goes depth by depth. *)
Lemma walk_queue_levels k : forall q,
  walk_queue q = levels_upto k q ++ walk_queue (level k q).
Proof.
  induction k as [|k IH]; intros q; [reflexivity|].
  rewrite levels_upto_succ, <- app_assoc. cbn [level].
  rewrite <- IH. apply walk_queue_level.
Qed.

Lemma walk_unfold n : walk n = n :: walk_queue (children n).
Proof. unfold walk. now simp walk_queue. Qed.

Lemma walk_queue_all_nodes q :
  Permutation (walk_queue q) (flat_map all_nodes q).
Proof.
  funelim (walk_queue q); simp walk_queue; [constructor|].
  simpl. rewrite all_nodes_unfold. simpl. constructor.
  etransitivity; [eassumption|].
  rewrite flat_map_app. apply Permutation_app_comm.
Qed.

Lemma walk_all_nodes n : Permutation (walk n) (all_nodes n).
Proof.
  unfold walk. etransitivity; [apply walk_queue_all_nodes|].
  simpl. now rewrite app_nil_r.
Qed.

Lemma walk_queue_children_descendants n :
  Permutation (walk_queue (children n)) (descendants n).
Proof. apply walk_queue_all_nodes. Qed.

(** ** List indexing *)

Lemma getitem_raises {A} (l : list A) i e :
  getitem l i = Raise e -> e = IndexError.
Proof.
  unfold getitem.
  destruct (_ && _); [destruct (nth_error _ _)|]; congruence.
Qed.

Lemma getitem_in_range {A} (l : list A) i d :
  0 <= i < Z.of_nat (List.length l) ->
  getitem l i = Ok (nth (Z.to_nat i) l d).
Proof.
  intros Hi. unfold getitem.
  destruct (Z.ltb_spec i 0); [lia|].
  destruct (Z.leb_spec 0 i); [|lia].
  destruct (Z.ltb_spec i (Z.of_nat (List.length l))); [|lia]. simpl.
  destruct (nth_error l (Z.to_nat i)) eqn:E.
  - now rewrite (nth_error_nth _ _ d E).
  - apply nth_error_None in E. lia.
Qed.

Lemma getitem_beyond {A} (l : list A) i :
  Z.of_nat (List.length l) <= i -> getitem l i = Raise IndexError.
Proof.
  intros Hi. unfold getitem.
  destruct (Z.ltb_spec i 0); [lia|].
  destruct (Z.ltb_spec i (Z.of_nat (List.length l))); [lia|].
  now rewrite andb_false_r.
Qed.

(** ** The location resolver *)

Lemma get_node_line_numbers_span p ls :
  get_node_line_numbers p ls = Ok (span_of p ls).
Proof.
  unfold get_node_line_numbers, span_of.
  destruct (end_col_offset p) as [c|]; simpl; [reflexivity|].
  destruct (getitem ls _) as [line|e] eqn:E; simpl; [reflexivity|].
  apply getitem_raises in E. subst e. reflexivity.
Qed.

(** ** The extractors *)

Lemma for_each_map {A B} (f : A -> B) body xs : forall acc,
  (forall acc x, body acc x = Ok (acc ++ [f x])) ->
  for_each xs body acc = Ok (acc ++ map f xs).
Proof.
  induction xs as [|x xs IH]; intros acc Hbody; simpl.
  - now rewrite app_nil_r.
  - rewrite Hbody. simpl. rewrite IH by assumption.
    now rewrite <- app_assoc.
Qed.

Lemma collect_methods_ok ls cls :
  collect_methods ls cls = Ok (methods_of ls cls).
Proof.
  unfold collect_methods, methods_of.
  rewrite <- flat_map_singleton_filter.
  apply for_each_total. intros acc child. unfold is_method_of.
  destruct (is_function_like child && negb (same_object child cls)).
  - now rewrite get_node_line_numbers_span.
  - now rewrite app_nil_r.
Qed.

Lemma extract_functions_classes_ok t src :
  extract_functions_classes (Some t) src =
  Ok (map (item_of (source_lines_of src)) (filter is_declaration (walk t))).
Proof.
  unfold extract_functions_classes.
  rewrite <- flat_map_singleton_filter.
  apply for_each_total. intros acc n. unfold item_of.
  destruct (is_declaration n); [|now rewrite app_nil_r].
  rewrite get_node_line_numbers_span. simpl.
  destruct (is_class n); [|reflexivity].
  now rewrite collect_methods_ok.
Qed.

Lemma find_imports_and_relations_ok {P} t src (file_path : P) :
  find_imports_and_relations (Some t) src file_path =
  Ok (flat_map imports_of (walk t)).
Proof.
  unfold find_imports_and_relations.
  apply for_each_total. intros acc n. unfold imports_of.
  destruct (kind n); try now rewrite app_nil_r.
  - now apply for_each_map.
  - now apply for_each_map.
Qed.

Lemma imports_of_not_import n : is_import n = false -> imports_of n = [].
Proof. unfold is_import, imports_of. destruct (kind n); congruence. Qed.

(** Under [distinct_objects], the identity test of the inner loop never
    fires on a function: a function is not the class it lies in. *)
Lemma is_method_of_function t cls child :
  distinct_objects t -> In cls (all_nodes t) -> is_class cls = true ->
  In child (all_nodes cls) ->
  is_method_of cls child = is_function_like child.
Proof.
  intros Hid Hcls Hclass Hchild. unfold is_method_of, same_object.
  destruct (is_function_like child) eqn:Hf; [simpl|reflexivity].
  destruct (Nat.eqb_spec (nid child) (nid cls)) as [Heq|]; [|reflexivity].
  apply Hid in Heq; [|eapply all_nodes_trans; eassumption|assumption].
  subst child. unfold is_function_like, is_class in *.
  destruct (kind cls); discriminate.
Qed.

Lemma is_method_of_root cls : is_class cls = true -> is_method_of cls cls = false.
Proof.
  unfold is_method_of, is_class, is_function_like.
  destruct (kind cls); simpl; congruence.
Qed.

(** With distinct objects, the methods of a class are the function nodes
    met below it, in traversal order. *)
Lemma methods_of_descendants ls t cls :
  distinct_objects t -> In cls (all_nodes t) -> is_class cls = true ->
  methods_of ls cls =
  map (method_of ls) (filter is_function_like (walk_queue (children cls))).
Proof.
  intros Hid Hcls Hclass. unfold methods_of. rewrite walk_unfold. simpl.
  rewrite is_method_of_root by assumption. f_equal.
  apply filter_ext_in. intros c Hc.
  eapply is_method_of_function; try eassumption.
  apply descendants_all_nodes.
  eapply Permutation_in; [apply walk_queue_children_descendants|assumption].
Qed.

(** ** Sample trees *)

Lemma views_tree_distinct : distinct_objects Samples.views_tree.
Proof.
  intros a b Ha Hb Hid. simpl in Ha, Hb.
  repeat (destruct Ha as [<-|Ha]; [|]);
    try contradiction;
    repeat (destruct Hb as [<-|Hb]; [|]);
    try contradiction; try reflexivity; discriminate Hid.
Qed.

(** ** The location resolver: totality and the fallback span *)




(** C4, as stated: with no end position the span would start at column 0.
    It does not when the node has a start column. *)
Lemma fallback_col_start_counterexample :
  end_lineno Samples.indented_def = None /\
  end_col_offset Samples.indented_def = None /\
  getitem Samples.two_lines (lineno Samples.indented_def - 1)
    = Ok "    def f(self): pass" /\
  get_node_line_numbers Samples.indented_def Samples.two_lines
    <> Ok (Location 2 2 0 (len "    def f(self): pass")).
Proof. repeat split; discriminate. Qed.

(** C4, amended.  The resolver never raises.  When the node has neither an
    end line nor an end column, [line_end] is [line_start]; if the line at
    [line_end] can be indexed, [col_start] is the node's start column when
    it has one and 0 otherwise, and [col_end] is the length of that line;
    if indexing fails (in particular when [line_end] is beyond the source
    lines), [col_start] and [col_end] are both 0. *)
Theorem resolver_total_with_fallback p ls :
  (exists span, get_node_line_numbers p ls = Ok span) /\
  (end_lineno p = None -> end_col_offset p = None ->
   1 <= lineno p <= Z.of_nat (List.length ls) ->
   get_node_line_numbers p ls =
   Ok (Location (lineno p) (lineno p)
                (match col_offset p with Some c => c | None => 0 end)
                (len (nth (Z.to_nat (lineno p - 1)) ls "")))) /\
  (end_lineno p = None -> end_col_offset p = None ->
   Z.of_nat (List.length ls) < lineno p ->
   get_node_line_numbers p ls = Ok (Location (lineno p) (lineno p) 0 0)) /\
  (end_lineno p = None -> end_col_offset p = None ->
   forall e, getitem ls (lineno p - 1) = Raise e ->
   get_node_line_numbers p ls = Ok (Location (lineno p) (lineno p) 0 0)).
Proof.
  rewrite get_node_line_numbers_span. split; [eauto|].
  unfold span_of. repeat split; intros -> ->.
  - intros Hl. rewrite (getitem_in_range ls _ "") by lia. reflexivity.
  - intros Hl. rewrite getitem_beyond by lia. reflexivity.
  - intros e ->. reflexivity.
Qed.

Lemma resolver_total_with_fallback_witness :
  get_node_line_numbers Samples.indented_def Samples.two_lines =
  Ok (Location 2 2 4 21) /\
  get_node_line_numbers (Position 7 None (Some 4) None) Samples.two_lines =
  Ok (Location 7 7 0 0).
Proof.
  split.
  - apply (proj1 (proj2 (resolver_total_with_fallback
                           Samples.indented_def Samples.two_lines)));
      [reflexivity | reflexivity | simpl; lia].
  - apply (proj1 (proj2 (proj2 (resolver_total_with_fallback
                           (Position 7 None (Some 4) None)
                           Samples.two_lines))));
      [reflexivity | reflexivity | simpl; lia].
Defined.

(** ** The import extractor *)

(** C3, as stated: the entries would follow the order of the statements in
    the source text.  An import inside a function body is emitted after a
    later top-level import. *)
Lemma import_source_order_counterexample :
  flat_map imports_of (all_nodes Samples.nested_import)
    = [PlainImport "a" "a"; PlainImport "b" "b"] /\
  find_imports_and_relations (Some Samples.nested_import) None tt
    = Ok [PlainImport "b" "b"; PlainImport "a" "a"] /\
  find_imports_and_relations (Some Samples.nested_import) None tt
    <> Ok (flat_map imports_of (all_nodes Samples.nested_import)).
Proof. repeat split. discriminate. Qed.

Lemma flat_map_imports_top_level cs :
  (forall c d, In c cs -> In d (descendants c) -> is_import d = false) ->
  flat_map imports_of (flat_map all_nodes cs) = flat_map imports_of cs.
Proof.
  induction cs as [|c cs IH]; intros H; simpl; [reflexivity|].
  rewrite flat_map_app, all_nodes_unfold. simpl.
  rewrite (flat_map_nil imports_of (descendants c)).
  - rewrite app_nil_r. f_equal. apply IH. intros c' d Hc'. apply H. now right.
  - intros d Hd. apply imports_of_not_import. apply (H c d); [now left|assumption].
Qed.

(** C3, amended.  The entries follow the order in which [ast.walk] meets the
    import statements, which is breadth-first: the statements of the first
    [k] nesting depths come first, depth by depth and left to right within
    a depth.  When every import statement is a top-level statement of the
    file, that is the order of the source text; in particular
    [import a; from b import c as d; import e as f] gives the three entries
    in that order. *)
Theorem imports_in_walk_order {P} t src (file_path : P) :
  find_imports_and_relations (Some t) src file_path
    = Ok (flat_map imports_of (walk t)) /\
  ((forall c d, In c (children t) -> In d (descendants c) ->
                is_import d = false) ->
   find_imports_and_relations (Some t) src file_path
     = Ok (flat_map imports_of (all_nodes t))) /\
  find_imports_and_relations (Some Samples.three_imports) src file_path
    = Ok [PlainImport "a" "a"; FromImport "b" "c" (Some "d");
          PlainImport "e" "f"] /\
  (forall k,
     find_imports_and_relations (Some t) src file_path
       = Ok (flat_map imports_of (levels_upto k [t])
             ++ flat_map imports_of (walk_queue (level k [t])))).
Proof.
  split; [apply find_imports_and_relations_ok|]. split; [|split].
  - intros Htop. rewrite find_imports_and_relations_ok. f_equal.
    rewrite walk_unfold, walk_queue_level, all_nodes_unfold. simpl.
    unfold descendants. rewrite flat_map_app.
    rewrite flat_map_imports_top_level by assumption.
    rewrite (flat_map_nil imports_of (walk_queue _)); [now rewrite app_nil_r|].
    intros d Hd. apply imports_of_not_import.
    apply (Permutation_in _ (walk_queue_all_nodes _)) in Hd.
    apply in_flat_map in Hd as (g & Hg & Hd).
    apply in_flat_map in Hg as (c & Hc & Hg).
    apply (Htop c d Hc). unfold descendants.
    apply in_flat_map. exists g. now split.
  - rewrite find_imports_and_relations_ok. reflexivity.
  - intros k. rewrite find_imports_and_relations_ok. unfold walk.
    now rewrite (walk_queue_levels k), flat_map_app.
Qed.

Lemma imports_in_walk_order_witness :
  find_imports_and_relations (Some Samples.three_imports) None tt
    = Ok (flat_map imports_of (all_nodes Samples.three_imports)).
Proof.
  apply (proj1 (proj2 (imports_in_walk_order Samples.three_imports None tt))).
  intros c d Hc Hd. simpl in Hc.
  destruct Hc as [<-|[<-|[<-|[]]]]; simpl in Hd;
    destruct Hd as [<-|[]]; reflexivity.
Defined.

(** ** The declaration extractor *)

(** C7.  On a parsed file the extractor returns a list that holds, for each
    function, async function and class node of the tree, the one item built
    from it, and nothing else. *)
Theorem declarations_exactly_once t src :
  exists items,
    extract_functions_classes (Some t) src = Ok items /\
    Permutation items
      (map (item_of (source_lines_of src))
           (filter is_declaration (all_nodes t))) /\
    List.length items = List.length (filter is_declaration (all_nodes t)).
Proof.
  eexists. split; [apply extract_functions_classes_ok|].
  assert (HP : Permutation
                 (map (item_of (source_lines_of src))
                      (filter is_declaration (walk t)))
                 (map (item_of (source_lines_of src))
                      (filter is_declaration (all_nodes t)))).
  { apply Permutation_map, Permutation_filter_fun, walk_all_nodes. }
  split; [exact HP|].
  rewrite (Permutation_length HP). apply length_map.
Qed.

Lemma item_of_in_extract t src n :
  In n (all_nodes t) -> is_declaration n = true ->
  In (item_of (source_lines_of src) n)
     (map (item_of (source_lines_of src)) (filter is_declaration (walk t))).
Proof.
  intros Hn Hd. apply in_map, filter_In. split; [|assumption].
  eapply Permutation_in; [symmetry; apply walk_all_nodes|assumption].
Qed.

Lemma is_class_declaration n : is_class n = true -> is_declaration n = true.
Proof. unfold is_declaration. intros ->. apply orb_true_r. Qed.

Lemma is_function_declaration n :
  is_function_like n = true -> is_declaration n = true.
Proof. unfold is_declaration. now intros ->. Qed.

Lemma is_function_not_class n :
  is_function_like n = true -> is_class n = false.
Proof. unfold is_function_like, is_class. destruct (kind n); congruence. Qed.

(** C6.  In a tree of distinct objects, the item emitted for a class node
    carries a methods list that holds exactly the entries of the function
    and async function nodes strictly below the class node, at any depth;
    the class node itself is not kept by the loop that builds the list. *)
Theorem class_methods_exact t src cls :
  distinct_objects t -> In cls (all_nodes t) -> is_class cls = true ->
  exists items methods,
    extract_functions_classes (Some t) src = Ok items /\
    In (Item Class (node_name cls) None
             (span_of (node_pos cls) (source_lines_of src)) methods) items /\
    collect_methods (source_lines_of src) cls = Ok methods /\
    Permutation methods
      (map (method_of (source_lines_of src))
           (filter is_function_like (descendants cls))) /\
    is_method_of cls cls = false.
Proof.
  intros Hid Hcls Hclass.
  exists (map (item_of (source_lines_of src))
              (filter is_declaration (walk t))),
         (methods_of (source_lines_of src) cls).
  split; [apply extract_functions_classes_ok|]. split; [|split; [|split]].
  - pose proof (item_of_in_extract t src cls Hcls
                  (is_class_declaration _ Hclass)) as Hin.
    unfold item_of in Hin at 1. now rewrite Hclass in Hin.
  - apply collect_methods_ok.
  - rewrite (methods_of_descendants _ t) by assumption.
    apply Permutation_map, Permutation_filter_fun,
      walk_queue_children_descendants.
  - now apply is_method_of_root.
Qed.

Lemma class_methods_exact_witness :
  exists items methods,
    extract_functions_classes (Some Samples.views_tree)
                              (Some Samples.views_source) = Ok items /\
    In (Item Class "Foo" None (Location 1 2 0 23) methods) items /\
    collect_methods (source_lines_of (Some Samples.views_source))
                    Samples.foo_class = Ok methods /\
    Permutation methods [MethodRecord "bar" false (Location 2 2 4 23)] /\
    is_method_of Samples.foo_class Samples.foo_class = false.
Proof.
  apply (class_methods_exact Samples.views_tree (Some Samples.views_source)
                             Samples.foo_class).
  - exact views_tree_distinct.
  - simpl. right. now left.
  - reflexivity.
Defined.

(** C10.  In a tree of distinct objects, a function node below a class node
    is emitted as a Function item of the file and also as an entry of the
    methods list of that class, whichever of its enclosing classes that
    is. *)
Theorem function_in_class_listed_twice t src cls f :
  distinct_objects t -> In cls (all_nodes t) -> is_class cls = true ->
  In f (descendants cls) -> is_function_like f = true ->
  exists items methods,
    extract_functions_classes (Some t) src = Ok items /\
    In (Item Function (node_name f) (Some (is_async_def f))
             (span_of (node_pos f) (source_lines_of src)) []) items /\
    In (Item Class (node_name cls) None
             (span_of (node_pos cls) (source_lines_of src)) methods) items /\
    In (MethodRecord (node_name f) (is_async_def f)
                     (span_of (node_pos f) (source_lines_of src))) methods.
Proof.
  intros Hid Hcls Hclass Hf Hfun.
  exists (map (item_of (source_lines_of src))
              (filter is_declaration (walk t))),
         (methods_of (source_lines_of src) cls).
  split; [apply extract_functions_classes_ok|]. split; [|split].
  - assert (Hft : In f (all_nodes t)).
    { eapply all_nodes_trans; [exact Hcls|].
      now apply descendants_all_nodes. }
    pose proof (item_of_in_extract t src f Hft
                  (is_function_declaration _ Hfun)) as Hin.
    unfold item_of in Hin at 1.
    now rewrite (is_function_not_class _ Hfun) in Hin.
  - pose proof (item_of_in_extract t src cls Hcls
                  (is_class_declaration _ Hclass)) as Hin.
    unfold item_of in Hin at 1. now rewrite Hclass in Hin.
  - rewrite (methods_of_descendants _ t) by assumption.
    apply (in_map (method_of (source_lines_of src))).
    apply filter_In. split; [|assumption].
    eapply Permutation_in;
      [symmetry; apply walk_queue_children_descendants|assumption].
Qed.

Lemma function_in_class_listed_twice_witness :
  exists items methods,
    extract_functions_classes (Some Samples.views_tree)
                              (Some Samples.views_source) = Ok items /\
    In (Item Function "bar" (Some false) (Location 2 2 4 23) []) items /\
    In (Item Class "Foo" None (Location 1 2 0 23) methods) items /\
    In (MethodRecord "bar" false (Location 2 2 4 23)) methods.
Proof.
  apply (function_in_class_listed_twice
           Samples.views_tree (Some Samples.views_source)
           Samples.foo_class Samples.bar_def).
  - exact views_tree_distinct.
  - simpl. right. now left.
  - reflexivity.
  - simpl. now left.
  - reflexivity.
Defined.

(** ** The file loop and the aggregator *)

Lemma for_each_map_in {A B} (f : A -> B) body xs : forall acc,
  (forall acc x, In x xs -> body acc x = Ok (acc ++ [f x])) ->
  for_each xs body acc = Ok (acc ++ map f xs).
Proof.
  induction xs as [|x xs IH]; intros acc Hbody; simpl.
  - now rewrite app_nil_r.
  - rewrite Hbody by now left. simpl.
    rewrite IH by (intros; apply Hbody; now right).
    now rewrite <- app_assoc.
Qed.

Lemma for_each_ext_in {A S} (body1 body2 : S -> A -> result S) xs :
  (forall acc x, In x xs -> body1 acc x = body2 acc x) ->
  forall acc, for_each xs body1 acc = for_each xs body2 acc.
Proof.
  induction xs as [|x xs IH]; intros Hbody acc; simpl; [reflexivity|].
  rewrite Hbody by now left.
  destruct (body2 acc x); simpl; [|reflexivity].
  apply IH. intros. apply Hbody. now right.
Qed.

Lemma scan_files_cons w p rest :
  scan_files w (p :: rest) =
  (r <- file_step w p ;; files <- scan_files w rest ;; Ok (r ++ files)).
Proof.
  unfold scan_files. apply for_each_cons. intros acc x. unfold file_step.
  destruct (is_skipped x); simpl; [now rewrite app_nil_r|].
  destruct (scan_file w x); reflexivity.
Qed.

Lemma scan_files_all_skipped w py_files :
  (forall f, In f py_files -> is_skipped f = true) ->
  scan_files w py_files = Ok [].
Proof.
  induction py_files as [|p rest IH]; intros H; [reflexivity|].
  rewrite scan_files_cons. unfold file_step.
  rewrite H by now left. simpl.
  rewrite IH; [reflexivity|]. intros. apply H. now right.
Qed.

(** C1, as stated: a read failure would be absorbed like a parse failure.
    [OSError] is not among the exceptions [parse_code] catches, so it leaves
    [parse_code] and ends the run. *)
Lemma read_failure_counterexample :
  open_read Worlds.unreadable ["shop"; "models.py"] = Raise OSError /\
  parse_code Worlds.unreadable ["shop"; "models.py"] <> Ok (None, None) /\
  parse_code Worlds.unreadable ["shop"; "models.py"] = Raise OSError /\
  generate_project_structure_json Worlds.unreadable [["shop"]] "out.json"
    = Raise OSError.
Proof. repeat split. discriminate. Qed.

(** C1, amended.  A file that cannot be decoded or does not parse makes
    [parse_code] return [(None, None)] without raising; the file contributes
    a record with no items and no imports and the remaining files are
    scanned.  A read failure raising [OSError] is not caught: it leaves
    [parse_code] and the file loop. *)
Theorem parse_failure_absorbed_read_failure_raised w p rest :
  ((open_read w p = Raise UnicodeDecodeError \/
    exists s, open_read w p = Ok s /\ ast_parse w s = Raise SyntaxError) ->
   parse_code w p = Ok (None, None) /\
   scan_file w p = Ok (empty_record w p) /\
   (is_skipped p = false ->
    scan_files w (p :: rest) =
    (files <- scan_files w rest ;; Ok (empty_record w p :: files)))) /\
  (open_read w p = Raise OSError ->
   parse_code w p = Raise OSError /\
   scan_file w p = Raise OSError /\
   (is_skipped p = false -> scan_files w (p :: rest) = Raise OSError)).
Proof.
  split.
  - intros Hfail.
    assert (Hparse : parse_code w p = Ok (None, None)).
    { unfold parse_code.
      destruct Hfail as [-> | (s & -> & Hs)]; simpl; [|rewrite Hs];
        reflexivity. }
    assert (Hscan : scan_file w p = Ok (empty_record w p)).
    { unfold scan_file. rewrite Hparse. reflexivity. }
    repeat split; try assumption.
    intros Hskip. rewrite scan_files_cons. unfold file_step.
    rewrite Hskip, Hscan. reflexivity.
  - intros Hread.
    assert (Hparse : parse_code w p = Raise OSError).
    { unfold parse_code. rewrite Hread. reflexivity. }
    assert (Hscan : scan_file w p = Raise OSError).
    { unfold scan_file. rewrite Hparse. reflexivity. }
    repeat split; try assumption.
    intros Hskip. rewrite scan_files_cons. unfold file_step.
    rewrite Hskip, Hscan. reflexivity.
Qed.

Lemma parse_failure_absorbed_read_failure_raised_witness :
  (parse_code Worlds.unparsable ["shop"; "models.py"] = Ok (None, None) /\
   scan_files Worlds.unparsable [["shop"; "models.py"]; ["shop"; "views.py"]]
   = (files <- scan_files Worlds.unparsable [["shop"; "views.py"]] ;;
      Ok (empty_record Worlds.unparsable ["shop"; "models.py"] :: files))) /\
  parse_code Worlds.unparsable ["shop"; "views.py"] = Ok (None, None) /\
  scan_files Worlds.unreadable [["shop"; "models.py"]; ["shop"; "views.py"]]
  = Raise OSError.
Proof.
  pose proof (parse_failure_absorbed_read_failure_raised
                Worlds.unparsable ["shop"; "models.py"]
                [["shop"; "views.py"]]) as [Hsyntax _].
  pose proof (parse_failure_absorbed_read_failure_raised
                Worlds.unparsable ["shop"; "views.py"] []) as [Hdecode _].
  pose proof (parse_failure_absorbed_read_failure_raised
                Worlds.unreadable ["shop"; "models.py"]
                [["shop"; "views.py"]]) as [_ Hread].
  split; [split|split].
  - apply Hsyntax. right. exists "def (". split; reflexivity.
  - apply Hsyntax; [|reflexivity]. right. exists "def (". split; reflexivity.
  - apply Hdecode. left. reflexivity.
  - apply Hread; reflexivity.
Defined.

(** C2, as stated: with no root directories the aggregator would return a
    model whose [apps] is empty.  It returns no model at all. *)
Lemma empty_roots_counterexample :
  ~ exists model,
      generate_project_structure_json (Worlds.shop "2024-01-01T00:00:00")
                                      [] "out.json" = Ok (Some model) /\
      apps model = [].
Proof. intros (model & H & _). discriminate H. Qed.

(** C2, amended.  With no root directories the aggregator returns nothing
    (the bare [return], before anything is scanned or written).  With root
    directories none of which holds a qualifying file, and a writable output
    file, it returns a model with one app record per root, each with no
    files.  The two outcomes differ. *)
Theorem empty_roots_distinguished w roots out :
  roots <> [] ->
  (forall r f, In r roots -> In f (rglob_py w r) -> is_skipped f = true) ->
  open_write w out = true ->
  generate_project_structure_json w [] out = Ok None /\
  generate_project_structure_json w roots out =
    Ok (Some (ProjectData (now_isoformat w)
                (map (fun r => AppData (path_name r) (path_str r) []) roots)))
  /\ generate_project_structure_json w roots out
     <> generate_project_structure_json w [] out.
Proof.
  intros Hne Hskip Hout.
  assert (Hgen : generate_project_structure_json w roots out =
            Ok (Some (ProjectData (now_isoformat w)
              (map (fun r => AppData (path_name r) (path_str r) []) roots)))).
  { unfold generate_project_structure_json.
    destruct roots as [|r0 roots']; [contradiction|].
    rewrite (for_each_map_in
               (fun r => AppData (path_name r) (path_str r) [])).
    - simpl. now rewrite Hout.
    - intros acc r Hr.
      rewrite scan_files_all_skipped; [reflexivity|].
      intros f. now apply Hskip. }
  split; [reflexivity|]. split; [exact Hgen|].
  rewrite Hgen. discriminate.
Qed.

Lemma empty_roots_distinguished_witness :
  generate_project_structure_json (Worlds.shop "now") [] "out.json" = Ok None /\
  generate_project_structure_json (Worlds.shop "now") [["blog"]] "out.json" =
    Ok (Some (ProjectData "now" [AppData "blog" "blog" []])) /\
  generate_project_structure_json (Worlds.shop "now") [["blog"]] "out.json"
  <> generate_project_structure_json (Worlds.shop "now") [] "out.json".
Proof.
  apply (empty_roots_distinguished (Worlds.shop "now") [["blog"]] "out.json").
  - discriminate.
  - intros r f [<-|[]] Hf. simpl in Hf. contradiction.
  - reflexivity.
Defined.

(** ** The migrations filter *)

Lemma prefix_append n z : String.prefix n (n ++ z)%string = true.
Proof.
  induction n as [|a n IH]; simpl; [now destruct z|].
  destruct (ascii_dec a a); [exact IH|contradiction].
Qed.

Lemma prefix_self n : String.prefix n n = true.
Proof.
  induction n as [|a n IH]; simpl; [reflexivity|].
  destruct (ascii_dec a a); [exact IH|contradiction].
Qed.

Lemma contains_prefix h n : String.prefix n h = true -> contains h n = true.
Proof. intros H. destruct h; cbn [contains]; now rewrite H. Qed.

Lemma contains_append_left x y n :
  contains y n = true -> contains (x ++ y)%string n = true.
Proof.
  intros H. induction x as [|a x IH]; [exact H|].
  change (String a x ++ y)%string with (String a (x ++ y)%string).
  cbn [contains]. destruct (String.prefix n _); [reflexivity|exact IH].
Qed.

Lemma contains_concat sep m p :
  In m p -> contains (String.concat sep p) m = true.
Proof.
  induction p as [|x xs IH]; intros Hin; [contradiction|].
  destruct xs as [|y ys].
  - destruct Hin as [->|[]]. simpl. apply contains_prefix, prefix_self.
  - change (String.concat sep (x :: y :: ys))
      with (x ++ sep ++ String.concat sep (y :: ys))%string.
    destruct Hin as [->|Hin].
    + apply contains_prefix, prefix_append.
    + now apply contains_append_left, contains_append_left, IH.
Qed.

Lemma in_removelast {A} (x : A) l : In x (removelast l) -> In x l.
Proof.
  induction l as [|a l IH]; simpl; [trivial|].
  destruct l; [contradiction|]. intros [->|H]; [now left|right; now apply IH].
Qed.

(** Every file the worded policy excludes is skipped by the script; the
    converse is what fails. *)
Lemma excluded_by_policy_skipped p :
  excluded_by_policy p = true -> is_skipped p = true.
Proof.
  unfold excluded_by_policy, is_skipped, under_migrations_dir.
  intros H. apply andb_true_iff in H as [Hdir ->].
  rewrite andb_true_r.
  apply existsb_exists in Hdir as (m & Hm & Heq).
  apply String.eqb_eq in Heq. subst m.
  apply in_removelast in Hm.
  destruct p as [|x xs]; [contradiction|].
  unfold path_str. now apply contains_concat.
Qed.

(** C5.  The filter tests whether the text of the whole path contains
    [migrations]: a module [shop/test_migrations.py], which lies under no
    [migrations] directory, is left out of the scan all the same, next to
    the migration file, while the [__init__.py] of the migrations package
    and the other modules are kept. *)
Theorem skips_file_outside_migrations_dir :
  under_migrations_dir ["shop"; "test_migrations.py"] = false /\
  excluded_by_policy ["shop"; "test_migrations.py"] = false /\
  is_skipped ["shop"; "test_migrations.py"] = true /\
  exists model,
    generate_project_structure_json (Worlds.shop "now") [["shop"]] "out.json"
      = Ok (Some model) /\
    map (fun a => map f_relative_path (a_files a)) (apps model)
      = [["shop/views.py"; "shop/migrations/__init__.py"]].
Proof.
  repeat split. eexists. split; reflexivity.
Qed.

(** ** Determinism *)

Lemma parse_code_ext w1 w2 p q :
  open_read w1 p = open_read w2 q ->
  (forall s, ast_parse w1 s = ast_parse w2 s) ->
  parse_code w1 p = parse_code w2 q.
Proof.
  intros Hread Hparse. unfold parse_code. rewrite Hread.
  destruct (open_read w2 q); simpl; [|reflexivity].
  now rewrite Hparse.
Qed.

(** * Further properties of the script *)

(** ** parse_code *)

(** X1.  When [parse_code] returns, the tree and the source are both absent
    or both present; when present they are the text read from the file and
    the tree the parser gave for that text. *)
Theorem parse_code_tree_with_source w p tree source :
  parse_code w p = Ok (tree, source) ->
  (tree = None /\ source = None) \/
  (exists t s, tree = Some t /\ source = Some s /\
               open_read w p = Ok s /\ ast_parse w s = Ok t).
Proof.
  unfold parse_code.
  destruct (open_read w p) as [s|e] eqn:Hread; simpl.
  - destruct (ast_parse w s) as [t|e] eqn:Hparse; simpl.
    + intros H. injection H as <- <-. right. now exists t, s.
    + destruct e; simpl; try discriminate;
        intros H; injection H as <- <-; now left.
  - destruct e; simpl; try discriminate;
      intros H; injection H as <- <-; now left.
Qed.

Lemma parse_code_tree_with_source_witness :
  (Some Samples.views_tree = None /\ Some Samples.views_source = None) \/
  (exists t s, Some Samples.views_tree = Some t /\
               Some Samples.views_source = Some s /\
               open_read (Worlds.shop "now") ["shop"; "views.py"] = Ok s /\
               ast_parse (Worlds.shop "now") s = Ok t).
Proof.
  apply (parse_code_tree_with_source (Worlds.shop "now") ["shop"; "views.py"]).
  reflexivity.
Defined.

(** X2.  An exception that leaves [parse_code] is neither [SyntaxError] nor
    [UnicodeDecodeError], and it is the one the read or the parser raised. *)
Theorem parse_code_escaping_exception w p e :
  parse_code w p = Raise e ->
  e <> SyntaxError /\ e <> UnicodeDecodeError /\
  (open_read w p = Raise e \/
   exists s, open_read w p = Ok s /\ ast_parse w s = Raise e).
Proof.
  unfold parse_code.
  destruct (open_read w p) as [s|e'] eqn:Hread; simpl.
  - destruct (ast_parse w s) as [t|e'] eqn:Hparse; simpl; [discriminate|].
    destruct e'; simpl; try discriminate;
      intros H; injection H as <-; repeat split; try discriminate;
      right; now exists s.
  - destruct e'; simpl; try discriminate;
      intros H; injection H as <-; repeat split; try discriminate;
      now left.
Qed.

Lemma parse_code_escaping_exception_witness :
  OSError <> SyntaxError /\ OSError <> UnicodeDecodeError /\
  (open_read Worlds.unreadable ["shop"; "models.py"] = Raise OSError \/
   exists s, open_read Worlds.unreadable ["shop"; "models.py"] = Ok s /\
             ast_parse Worlds.unreadable s = Raise OSError).
Proof.
  apply (parse_code_escaping_exception Worlds.unreadable
                                       ["shop"; "models.py"] OSError).
  reflexivity.
Defined.

(** ** get_node_line_numbers at the edges *)

Lemma getitem_from_end {A} (l : list A) i d :
  - Z.of_nat (List.length l) <= i < 0 ->
  getitem l i = Ok (nth (Z.to_nat (i + Z.of_nat (List.length l))) l d).
Proof.
  intros Hi. unfold getitem.
  destruct (Z.ltb_spec i 0); [|lia].
  destruct (Z.leb_spec 0 (i + Z.of_nat (List.length l))); [|lia].
  destruct (Z.ltb_spec (i + Z.of_nat (List.length l))
                       (Z.of_nat (List.length l))); [|lia]. simpl.
  destruct (nth_error l _) eqn:E.
  - now rewrite (nth_error_nth _ _ d E).
  - apply nth_error_None in E. lia.
Qed.

Lemma getitem_before {A} (l : list A) i :
  i < - Z.of_nat (List.length l) -> getitem l i = Raise IndexError.
Proof.
  intros Hi. unfold getitem.
  destruct (Z.ltb_spec i 0); [|lia].
  destruct (Z.leb_spec 0 (i + Z.of_nat (List.length l))); [lia|].
  reflexivity.
Qed.

(** X3.  A node without an end column whose (end) line is 0 or negative,
    but no further below 0 than there are lines, does not get the degenerate
    span: the index wraps around, and [col_end] is the length of a line
    counted from the end of the source. *)
Theorem resolver_wraps_around p ls :
  end_col_offset p = None ->
  - Z.of_nat (List.length ls) < fallback_line p <= 0 ->
  get_node_line_numbers p ls =
  Ok (Location (lineno p) (fallback_line p)
               (match col_offset p with Some c => c | None => 0 end)
               (len (nth (Z.to_nat (fallback_line p - 1
                                    + Z.of_nat (List.length ls))) ls ""))).
Proof.
  intros Hcol Hline. rewrite get_node_line_numbers_span.
  unfold span_of, fallback_line in *. rewrite Hcol.
  rewrite (getitem_from_end ls _ "") by lia. reflexivity.
Qed.

Lemma resolver_wraps_around_witness :
  get_node_line_numbers (Position 0 None None None) Samples.two_lines =
  Ok (Location 0 0 0 21).
Proof.
  apply (resolver_wraps_around (Position 0 None None None) Samples.two_lines).
  - reflexivity.
  - unfold fallback_line. simpl. lia.
Defined.

(** X4.  When a node has no end column and the line to look up lies outside
    the source in either direction, the whole span collapses onto the start
    line with both columns 0: an end line and a start column the node does
    carry are discarded. *)
Theorem resolver_collapses_on_failure p ls :
  end_col_offset p = None ->
  (Z.of_nat (List.length ls) < fallback_line p \/
   fallback_line p <= - Z.of_nat (List.length ls)) ->
  get_node_line_numbers p ls = Ok (Location (lineno p) (lineno p) 0 0).
Proof.
  intros Hcol Hline. rewrite get_node_line_numbers_span.
  unfold span_of, fallback_line in *. rewrite Hcol.
  destruct Hline as [Hline|Hline].
  - rewrite getitem_beyond by lia. reflexivity.
  - rewrite getitem_before by lia. reflexivity.
Qed.

Lemma resolver_collapses_on_failure_witness :
  get_node_line_numbers (Position 1 (Some 9) (Some 4) None) Samples.two_lines
  = Ok (Location 1 1 0 0).
Proof.
  apply (resolver_collapses_on_failure (Position 1 (Some 9) (Some 4) None)
                                       Samples.two_lines).
  - reflexivity.
  - left. unfold fallback_line. simpl. lia.
Defined.

(** ** extract_functions_classes: shape, order and duplication *)

Lemma walk_in_all_nodes t n : In n (walk t) <-> In n (all_nodes t).
Proof.
  split; apply Permutation_in;
    [apply walk_all_nodes | symmetry; apply walk_all_nodes].
Qed.

Lemma span_of_positioned p ls1 ls2 :
  end_col_offset p <> None -> span_of p ls1 = span_of p ls2.
Proof.
  unfold span_of. destruct (end_col_offset p); [reflexivity|contradiction].
Qed.

Lemma is_method_of_function_like cls c :
  is_method_of cls c = true -> is_function_like c = true.
Proof. unfold is_method_of. intros H. now apply andb_true_iff in H. Qed.

Lemma extract_item_inv t src items it :
  extract_functions_classes (Some t) src = Ok items -> In it items ->
  exists n, In n (all_nodes t) /\ is_declaration n = true /\
            it = item_of (source_lines_of src) n.
Proof.
  rewrite extract_functions_classes_ok. intros H Hin.
  injection H as <-. apply in_map_iff in Hin as (n & <- & Hn).
  apply filter_In in Hn as [Hn Hd]. exists n.
  repeat split; [now apply walk_in_all_nodes | assumption].
Qed.

(** X5.  When every declaration node of the tree carries an end column (as
    the parser's nodes do), the extracted items do not depend on the source
    text handed to the extractor. *)
Theorem extract_ignores_source_when_positioned t src1 src2 :
  (forall n, In n (all_nodes t) -> is_declaration n = true ->
             end_col_offset (node_pos n) <> None) ->
  extract_functions_classes (Some t) src1 =
  extract_functions_classes (Some t) src2.
Proof.
  intros Hpos. rewrite !extract_functions_classes_ok. f_equal.
  apply map_ext_in. intros n Hn. apply filter_In in Hn as [Hn Hd].
  apply walk_in_all_nodes in Hn.
  assert (Hspan : forall c, In c (all_nodes t) -> is_declaration c = true ->
            span_of (node_pos c) (source_lines_of src1) =
            span_of (node_pos c) (source_lines_of src2)).
  { intros c Hc Hcd. apply span_of_positioned. now apply Hpos. }
  unfold item_of. rewrite (Hspan n Hn Hd).
  destruct (is_class n); [|reflexivity].
  f_equal. unfold methods_of. apply map_ext_in. intros c Hc.
  apply filter_In in Hc as [Hc Hm]. apply walk_in_all_nodes in Hc.
  unfold method_of. f_equal. apply Hspan.
  - eapply all_nodes_trans; eassumption.
  - apply is_function_declaration. eapply is_method_of_function_like, Hm.
Qed.

Lemma extract_ignores_source_when_positioned_witness :
  extract_functions_classes (Some Samples.views_tree)
                            (Some Samples.views_source) =
  extract_functions_classes (Some Samples.views_tree) None.
Proof.
  apply (extract_ignores_source_when_positioned
           Samples.views_tree (Some Samples.views_source) None).
  intros n Hn Hd. simpl in Hn.
  repeat (destruct Hn as [<-|Hn]; [discriminate|]). contradiction.
Defined.

(** X6.  Every extracted item is either a Class item without an [is_async]
    key or a Function item with one and with an empty methods list; its
    name and location are those of a declaration node of the tree. *)
Theorem extracted_item_shape t src items it :
  extract_functions_classes (Some t) src = Ok items -> In it items ->
  (exists n, In n (all_nodes t) /\ is_declaration n = true /\
             i_name it = node_name n /\
             i_location it = span_of (node_pos n) (source_lines_of src)) /\
  ((i_type it = Class /\ i_is_async it = None) \/
   (i_type it = Function /\ i_methods it = [] /\
    exists b, i_is_async it = Some b)).
Proof.
  intros H Hin.
  destruct (extract_item_inv _ _ _ _ H Hin) as (n & Hn & Hd & ->).
  unfold item_of. destruct (is_class n); simpl.
  - split; [exists n; now repeat split | left; now split].
  - split; [exists n; now repeat split | right; repeat split; eauto].
Qed.

Lemma extracted_item_shape_witness :
  (exists n, In n (all_nodes Samples.views_tree) /\
             is_declaration n = true /\
             "baz" = node_name n /\
             Location 3 3 0 15 =
             span_of (node_pos n)
                     (source_lines_of (Some Samples.views_source))) /\
  ((Function = Class /\ Some false = None) \/
   (Function = Function /\ @nil method_record = [] /\
    exists b, Some false = Some b)).
Proof.
  apply (extracted_item_shape
           Samples.views_tree (Some Samples.views_source)
           (map (item_of (source_lines_of (Some Samples.views_source)))
                (filter is_declaration (walk Samples.views_tree)))
           (Item Function "baz" (Some false) (Location 3 3 0 15) [])).
  - apply extract_functions_classes_ok.
  - simpl. right. now left.
Defined.

(** X7.  Every entry of the methods list of an extracted class item is also
    present in the same items list as a standalone Function item with the
    same name, async flag and location. *)
Theorem method_entries_are_items t src items it m :
  extract_functions_classes (Some t) src = Ok items ->
  In it items -> In m (i_methods it) ->
  In (Item Function (m_name m) (Some (m_is_async m)) (m_location m) []) items.
Proof.
  intros H Hin Hm.
  destruct (extract_item_inv _ _ _ _ H Hin) as (n & Hn & Hd & ->).
  unfold item_of in Hm. destruct (is_class n); [|contradiction].
  simpl in Hm. unfold methods_of in Hm.
  apply in_map_iff in Hm as (c & <- & Hc).
  apply filter_In in Hc as [Hc Hcm]. apply walk_in_all_nodes in Hc.
  apply is_method_of_function_like in Hcm.
  rewrite extract_functions_classes_ok in H. injection H as <-.
  pose proof (item_of_in_extract t src c
                (all_nodes_trans _ _ _ Hn Hc)
                (is_function_declaration _ Hcm)) as Hitem.
  unfold item_of in Hitem at 1.
  now rewrite (is_function_not_class _ Hcm) in Hitem.
Qed.

Lemma method_entries_are_items_witness :
  In (Item Function "bar" (Some false) (Location 2 2 4 23) [])
     (map (item_of (source_lines_of (Some Samples.views_source)))
          (filter is_declaration (walk Samples.views_tree))).
Proof.
  apply (method_entries_are_items
           Samples.views_tree (Some Samples.views_source)
           (map (item_of (source_lines_of (Some Samples.views_source)))
                (filter is_declaration (walk Samples.views_tree)))
           (item_of (source_lines_of (Some Samples.views_source))
                    Samples.foo_class)
           (MethodRecord "bar" false (Location 2 2 4 23))).
  - apply extract_functions_classes_ok.
  - simpl. now left.
  - simpl. now left.
Defined.

(** X8.  In a tree of distinct objects, the methods list of a class holds
    every entry of the methods list of a class nested anywhere inside
    it. *)
Theorem nested_class_methods_included t ls outer inner :
  distinct_objects t -> In outer (all_nodes t) -> is_class outer = true ->
  In inner (descendants outer) -> is_class inner = true ->
  exists outer_methods inner_methods,
    collect_methods ls outer = Ok outer_methods /\
    collect_methods ls inner = Ok inner_methods /\
    incl inner_methods outer_methods.
Proof.
  intros Hid Houter Hclass Hinner _.
  exists (methods_of ls outer), (methods_of ls inner).
  split; [apply collect_methods_ok|]. split; [apply collect_methods_ok|].
  rewrite (methods_of_descendants ls t outer) by assumption.
  intros m Hm. unfold methods_of in Hm.
  apply in_map_iff in Hm as (c & <- & Hc).
  apply filter_In in Hc as [Hc Hcm]. apply walk_in_all_nodes in Hc.
  apply in_map, filter_In.
  split; [|eapply is_method_of_function_like, Hcm].
  eapply Permutation_in;
    [symmetry; apply walk_queue_children_descendants|].
  unfold descendants in *.
  apply in_flat_map in Hinner as (child & Hchild & Hinner).
  apply in_flat_map. exists child. split; [assumption|].
  eapply all_nodes_trans; eassumption.
Qed.

Lemma nested_tree_distinct : distinct_objects Nested.tree.
Proof.
  intros a b Ha Hb Hid. simpl in Ha, Hb.
  repeat (destruct Ha as [<-|Ha]; [|]);
    try contradiction;
    repeat (destruct Hb as [<-|Hb]; [|]);
    try contradiction; try reflexivity; discriminate Hid.
Qed.

Lemma nested_class_methods_included_witness :
  exists outer_methods inner_methods,
    collect_methods [] Nested.outer = Ok outer_methods /\
    collect_methods [] Nested.inner = Ok inner_methods /\
    incl inner_methods outer_methods.
Proof.
  apply (nested_class_methods_included Nested.tree [] Nested.outer
                                       Nested.inner).
  - exact nested_tree_distinct.
  - simpl. right. now left.
  - reflexivity.
  - simpl. now left.
  - reflexivity.
Defined.

(** X9.  The items come out by nesting depth: for every [k], the items of
    the declaration nodes of the first [k] depths of the tree, depth by
    depth and left to right, precede the items of all deeper nodes. *)
Theorem declarations_breadth_first t src k :
  extract_functions_classes (Some t) src =
  Ok (map (item_of (source_lines_of src))
          (filter is_declaration (levels_upto k [t]))
      ++ map (item_of (source_lines_of src))
             (filter is_declaration (walk_queue (level k [t])))).
Proof.
  rewrite extract_functions_classes_ok. unfold walk.
  now rewrite (walk_queue_levels k), filter_app, map_app.
Qed.

(** ** find_imports_and_relations: nothing lost, nothing split *)

Lemma Permutation_flat_map_fun {A B} (f : A -> list B) xs ys :
  Permutation xs ys -> Permutation (flat_map f xs) (flat_map f ys).
Proof.
  induction 1; simpl.
  - constructor.
  - now apply Permutation_app_head.
  - rewrite !app_assoc. apply Permutation_app_tail, Permutation_app_comm.
  - etransitivity; eassumption.
Qed.

Lemma imports_of_length n :
  List.length (imports_of n) = List.length (import_names n).
Proof.
  unfold imports_of, import_names.
  destruct (kind n); try reflexivity; apply length_map.
Qed.

(** X10.  The import entries of a file are, up to order, the entries of all
    import statements of the tree at any depth, one entry per imported
    name: none is lost and none is repeated. *)
Theorem imports_exactly_once {P} t src (file_path : P) :
  exists imports,
    find_imports_and_relations (Some t) src file_path = Ok imports /\
    Permutation imports (flat_map imports_of (all_nodes t)) /\
    List.length imports =
    list_sum (map (fun n => List.length (import_names n)) (all_nodes t)).
Proof.
  eexists. split; [apply find_imports_and_relations_ok|].
  assert (HP : Permutation (flat_map imports_of (walk t))
                           (flat_map imports_of (all_nodes t))).
  { apply Permutation_flat_map_fun, walk_all_nodes. }
  split; [exact HP|].
  rewrite (Permutation_length HP), length_flat_map.
  f_equal. apply map_ext. intros n. apply imports_of_length.
Qed.

(** X11.  The entries of one import statement stay together and keep the
    order of the statement's names: they form one contiguous run of the
    output. *)
Theorem import_statement_contiguous {P} t src (file_path : P) n :
  In n (all_nodes t) ->
  exists before after,
    find_imports_and_relations (Some t) src file_path =
    Ok (before ++ imports_of n ++ after).
Proof.
  intros Hn. apply walk_in_all_nodes in Hn.
  apply in_split in Hn as (l1 & l2 & Hsplit).
  exists (flat_map imports_of l1), (flat_map imports_of l2).
  rewrite find_imports_and_relations_ok, Hsplit, flat_map_app.
  reflexivity.
Qed.

Lemma import_statement_contiguous_witness :
  exists before after,
    find_imports_and_relations (Some Nested.tree) None tt =
    Ok (before ++ [PlainImport "os" "os"; PlainImport "sys" "s"] ++ after).
Proof.
  apply (import_statement_contiguous Nested.tree None tt
           (Node 4 (Import [Alias "os" None; Alias "sys" (Some "s")]) [])).
  simpl. do 4 right. now left.
Defined.

(** ** generate_project_structure_json: what a returned model holds *)

Lemma scan_file_paths w f fd :
  scan_file w f = Ok fd -> record_of_file w f fd.
Proof.
  intros H. split; [exact H|]. unfold scan_file in H.
  destruct (parse_code w f) as [[tree source]|e]; simpl in H; [|discriminate].
  destruct (extract_functions_classes tree source); simpl in H;
    [|discriminate].
  destruct (find_imports_and_relations tree source f); simpl in H;
    [|discriminate].
  injection H as <-. now repeat split.
Qed.

Lemma scan_files_records w fs : forall files,
  scan_files w fs = Ok files ->
  Forall2 (record_of_file w) (filter (fun f => negb (is_skipped f)) fs) files.
Proof.
  induction fs as [|f fs IH]; intros files H.
  - injection H as <-. constructor.
  - rewrite scan_files_cons in H. unfold file_step in H. simpl.
    destruct (is_skipped f); simpl in *.
    + destruct (scan_files w fs) as [rest|e]; simpl in H; [|discriminate].
      injection H as <-. now apply IH.
    + destruct (scan_file w f) as [fd|e] eqn:Hf; simpl in H; [|discriminate].
      destruct (scan_files w fs) as [rest|e]; simpl in H; [|discriminate].
      injection H as <-. constructor; [now apply scan_file_paths|now apply IH].
Qed.

Lemma collect_apps_records w roots : forall apps,
  collect (app_step w) roots = Ok apps ->
  Forall2 (record_of_root w) roots apps.
Proof.
  induction roots as [|r roots IH]; intros apps H; simpl in H.
  - injection H as <-. constructor.
  - unfold app_step in H at 1.
    destruct (scan_files w (rglob_py w r)) as [files|e] eqn:Hfiles;
      simpl in H; [|discriminate].
    destruct (collect (app_step w) roots) as [rest|e]; simpl in H;
      [|discriminate].
    injection H as <-. constructor; [|now apply IH].
    repeat split. now apply scan_files_records.
Qed.

Lemma generate_unfold w roots out :
  roots <> [] ->
  generate_project_structure_json w roots out =
  (apps <- collect (app_step w) roots ;;
   if open_write w out then Ok (Some (ProjectData (now_isoformat w) apps))
   else Raise OSError).
Proof.
  intros Hne. unfold generate_project_structure_json.
  destruct roots as [|r roots]; [contradiction|].
  rewrite (for_each_collect (app_step w)).
  - destruct (collect (app_step w) (r :: roots)); reflexivity.
  - intros acc x. unfold app_step.
    destruct (scan_files w (rglob_py w x)); reflexivity.
Qed.

Lemma generate_returns_records w roots out model :
  generate_project_structure_json w roots out = Ok (Some model) ->
  roots <> [] /\
  open_write w out = true /\
  generated_at model = now_isoformat w /\
  Forall2 (record_of_root w) roots (apps model).
Proof.
  intros H.
  assert (Hne : roots <> []) by (intros ->; discriminate H).
  rewrite (generate_unfold w roots out Hne) in H.
  destruct (collect (app_step w) roots) as [apps|e] eqn:Happs; simpl in H;
    [|discriminate].
  destruct (open_write w out); [|discriminate].
  injection H as <-. repeat split; try assumption.
  now apply collect_apps_records.
Qed.

(** X12.  A model returned by the aggregator carries the timestamp read at
    the start, one app record per root directory in the order the roots
    were given, and in each app one file record per file found under the
    root that the filter does not skip, in enumeration order, each being
    the scan of that file; the output file could be opened. *)
Theorem returned_model_mirrors_roots w roots out model :
  generate_project_structure_json w roots out = Ok (Some model) ->
  roots <> [] /\
  open_write w out = true /\
  generated_at model = now_isoformat w /\
  Forall2 (record_of_root w) roots (apps model).
Proof.
  intros H.
  destruct (generate_returns_records w roots out model H)
    as (Hne & Hout & Hnow & Happs).
  repeat split; assumption.
Qed.

Lemma returned_model_mirrors_roots_witness :
  [["blog"]] <> [] /\
  open_write (Worlds.shop "now") "out.json" = true /\
  generated_at (ProjectData "now" [AppData "blog" "blog" []])
  = now_isoformat (Worlds.shop "now") /\
  Forall2 (record_of_root (Worlds.shop "now")) [["blog"]]
          (apps (ProjectData "now" [AppData "blog" "blog" []])).
Proof.
  apply (returned_model_mirrors_roots (Worlds.shop "now") [["blog"]]
                                      "out.json").
  reflexivity.
Defined.

Lemma Forall2_in_left {A B} (R : A -> B -> Prop) xs ys x :
  Forall2 R xs ys -> In x xs -> exists y, In y ys /\ R x y.
Proof.
  induction 1 as [|a b xs ys Hab _ IH]; intros Hin; [contradiction|].
  destruct Hin as [<-|Hin].
  - exists b. split; [now left|assumption].
  - destruct (IH Hin) as (y & Hy & Hxy). exists y. split; [now right|assumption].
Qed.

(** X13.  The run is all or nothing: if reading any one file that is found
    under a root and not skipped raises [OSError], the aggregator returns no
    model but raises. *)
Theorem unreadable_file_fails_run w roots out r f :
  In r roots -> In f (rglob_py w r) -> is_skipped f = false ->
  open_read w f = Raise OSError ->
  exists e, generate_project_structure_json w roots out = Raise e.
Proof.
  intros Hr Hf Hskip Hread.
  destruct (generate_project_structure_json w roots out) as [[model|]|e]
    eqn:Hgen; [| |now exists e].
  - apply generate_returns_records in Hgen as (_ & _ & _ & Happs).
    destruct (Forall2_in_left _ _ _ r Happs Hr) as (a & _ & _ & _ & Hfiles).
    assert (Hin : In f (filter (fun f => negb (is_skipped f))
                               (rglob_py w r))).
    { apply filter_In. split; [assumption|]. now rewrite Hskip. }
    destruct (Forall2_in_left _ _ _ f Hfiles Hin) as (fd & _ & Hscan & _).
    unfold scan_file, parse_code in Hscan. rewrite Hread in Hscan.
    discriminate Hscan.
  - destruct roots as [|r0 roots]; [contradiction|].
    rewrite generate_unfold in Hgen by discriminate.
    destruct (collect _ _); simpl in Hgen; [|discriminate].
    destruct (open_write w out); discriminate.
Qed.

Lemma unreadable_file_fails_run_witness :
  exists e,
    generate_project_structure_json Worlds.unreadable [["blog"]; ["shop"]]
                                    "out.json" = Raise e.
Proof.
  apply (unreadable_file_fails_run Worlds.unreadable [["blog"]; ["shop"]]
           "out.json" ["shop"] ["shop"; "models.py"]).
  - right. now left.
  - simpl. now left.
  - reflexivity.
  - reflexivity.
Defined.

(** X14.  A skipped file is never opened: two environments that differ only
    in what reading the skipped files would give produce the same result. *)
Theorem skipped_files_never_read w1 w2 roots out :
  now_isoformat w1 = now_isoformat w2 ->
  (forall p, rglob_py w1 p = rglob_py w2 p) ->
  (forall p, resolve w1 p = resolve w2 p) ->
  (forall s, ast_parse w1 s = ast_parse w2 s) ->
  (forall o, open_write w1 o = open_write w2 o) ->
  (forall p, is_skipped p = false -> open_read w1 p = open_read w2 p) ->
  generate_project_structure_json w1 roots out =
  generate_project_structure_json w2 roots out.
Proof.
  intros Hnow Hglob Hres Hparse Hwrite Hread.
  assert (Hfiles : forall ps, scan_files w1 ps = scan_files w2 ps).
  { intros ps. unfold scan_files. apply for_each_ext_in.
    intros acc x _. destruct (is_skipped x) eqn:Hx; [reflexivity|].
    unfold scan_file.
    now rewrite (parse_code_ext w1 w2 x x (Hread x Hx) Hparse), Hres. }
  destruct roots as [|r roots]; [reflexivity|].
  rewrite !generate_unfold by discriminate.
  assert (Happs : forall rs,
            collect (app_step w1) rs = collect (app_step w2) rs).
  { induction rs as [|x rs IH]; simpl; [reflexivity|].
    unfold app_step at 1 3. now rewrite Hglob, Hfiles, IH. }
  now rewrite Happs, Hwrite, Hnow.
Qed.

Lemma skipped_files_never_read_witness :
  generate_project_structure_json (Worlds.shop "now") [["shop"]] "out.json" =
  generate_project_structure_json Unread.shop_locked_migration [["shop"]]
                                  "out.json".
Proof.
  apply (skipped_files_never_read (Worlds.shop "now")
                                  Unread.shop_locked_migration);
    try reflexivity.
  intros p Hp. simpl.
  destruct (Worlds.path_eqb p ["shop"; "migrations"; "0001_initial.py"])
    eqn:E; [|reflexivity].
  unfold Worlds.path_eqb in E.
  destruct (list_eq_dec string_dec p _) as [->|_]; discriminate.
Defined.

(** ** The migrations filter, by path components *)

Lemma prefix_empty h : String.prefix "" h = true.
Proof. now destruct h. Qed.

Lemma prefix_append_right n : forall x y,
  String.prefix n x = true -> String.prefix n (x ++ y)%string = true.
Proof.
  induction n as [|c n IH]; intros x y H; [apply prefix_empty|].
  destruct x as [|a x]; [discriminate H|].
  simpl in *. destruct (ascii_dec c a); [now apply IH|discriminate].
Qed.

Lemma contains_cons a x n :
  contains x n = true -> contains (String a x) n = true.
Proof. intros H. cbn [contains]. now destruct (String.prefix n _). Qed.

Lemma contains_append_right x y n :
  contains x n = true -> contains (x ++ y)%string n = true.
Proof.
  induction x as [|a x IH]; intros H.
  - apply contains_prefix, (prefix_append_right n "" y).
    cbn [contains] in H. now destruct (String.prefix n "").
  - cbn [contains] in H.
    destruct (String.prefix n (String a x)) eqn:Hp.
    + now apply contains_prefix, prefix_append_right.
    + change (String a x ++ y)%string with (String a (x ++ y)%string).
      now apply contains_cons, IH.
Qed.

Lemma concat_component sep seg p :
  In seg p ->
  exists before after,
    String.concat sep p = (before ++ seg ++ after)%string.
Proof.
  induction p as [|x xs IH]; intros Hin; [contradiction|].
  destruct xs as [|y ys].
  - destruct Hin as [->|[]]. exists "", "". simpl.
    induction seg as [|a seg IHseg]; simpl; [reflexivity|now rewrite <- IHseg].
  - change (String.concat sep (x :: y :: ys))
      with (x ++ sep ++ String.concat sep (y :: ys))%string.
    destruct Hin as [->|Hin].
    + now exists "", (sep ++ String.concat sep (y :: ys))%string.
    + destruct (IH Hin) as (before & after & ->).
      exists (x ++ sep ++ before)%string, after.
      clear. induction x as [|a x IHx]; simpl.
      * induction sep as [|b sep IHsep]; simpl; [reflexivity|now rewrite IHsep].
      * now rewrite IHx.
Qed.

Lemma prefix_stops_at_separator c n : forall a b,
  mentions c n = false ->
  String.prefix n (a ++ String c b)%string = true ->
  String.prefix n a = true.
Proof.
  induction n as [|x n IH]; intros a b Hfree H; [apply prefix_empty|].
  simpl in Hfree. apply orb_false_iff in Hfree as [Hx Hfree].
  destruct a as [|y a]; simpl in *.
  - destruct (ascii_dec x c) as [->|]; [|discriminate].
    now rewrite Ascii.eqb_refl in Hx.
  - destruct (ascii_dec x y); [now apply (IH a b)|discriminate].
Qed.

Lemma contains_across_separator c n : forall a b,
  mentions c n = false ->
  contains (a ++ String c b)%string n = true ->
  contains a n = true \/ contains b n = true.
Proof.
  induction a as [|y a IH]; intros b Hfree H.
  - change ("" ++ String c b)%string with (String c b) in H.
    cbn [contains] in H.
    destruct (String.prefix n (String c b)) eqn:Hp; [|now right].
    left. apply contains_prefix.
    now apply (prefix_stops_at_separator c n "" b).
  - change (String y a ++ String c b)%string
      with (String y (a ++ String c b)%string) in H.
    cbn [contains] in H.
    destruct (String.prefix n (String y (a ++ String c b))) eqn:Hp.
    + left. apply contains_prefix.
      now apply (prefix_stops_at_separator c n (String y a) b).
    + destruct (IH b Hfree H) as [Ha|Hb]; [left|now right].
      now apply contains_cons.
Qed.

Lemma contains_concat_component c n p :
  mentions c n = false ->
  contains "" n = false ->
  contains (String.concat (String c "") p) n = true ->
  exists seg, In seg p /\ contains seg n = true.
Proof.
  intros Hfree Hne. induction p as [|x xs IH]; intros H.
  - change (String.concat (String c "") []) with "" in H. congruence.
  - destruct xs as [|y ys].
    + exists x. split; [now left|exact H].
    + change (String.concat (String c "") (x :: y :: ys))
        with (x ++ String c (String.concat (String c "") (y :: ys)))%string
        in H.
      apply (contains_across_separator c n _ _ Hfree) in H as [Hx|Hrest].
      * exists x. split; [now left|assumption].
      * destruct (IH Hrest) as (seg & Hin & Hseg).
        exists seg. split; [now right|assumption].
Qed.

(** X15.  A file is left out of the scan exactly when its name is not
    [__init__.py] and some component of its path, a directory name or the
    file name itself, contains the text [migrations]. *)
Theorem is_skipped_by_component p :
  is_skipped p = true <->
  (exists seg, In seg p /\ contains seg "migrations" = true) /\
  path_name p <> "__init__.py".
Proof.
  unfold is_skipped.
  rewrite andb_true_iff, negb_true_iff, String.eqb_neq.
  apply and_iff_compat_r.
  destruct p as [|x xs].
  - simpl. split; [discriminate|]. now intros (seg & [] & _).
  - unfold path_str. split.
    + apply (contains_concat_component "/"%char); reflexivity.
    + intros (seg & Hin & Hseg).
      destruct (concat_component "/" seg (x :: xs) Hin)
        as (before & after & ->).
      now apply contains_append_left, contains_append_right.
Qed.

(** ** The line array *)

Lemma split_lines_not_nil s : split_lines s <> [].
Proof.
  destruct s as [|c s]; simpl; [discriminate|].
  destruct (Ascii.eqb c "010"); [discriminate|].
  destruct (split_lines s); discriminate.
Qed.

(** X16.  Splitting a source text into its line array loses nothing:
    joining the lines with newlines gives the text back, there is one more
    line than there are newline characters, and no line holds a newline. *)
Theorem split_lines_round_trip s :
  String.concat (String "010" "") (split_lines s) = s /\
  List.length (split_lines s) = S (count_char "010" s) /\
  Forall (fun line => mentions "010" line = false) (split_lines s).
Proof.
  induction s as [|c s (IHjoin & IHlen & IHfree)]; simpl.
  - repeat split. repeat constructor.
  - destruct (Ascii.eqb_spec c "010") as [->|Hc].
    + pose proof (split_lines_not_nil s) as Hne.
      destruct (split_lines s) as [|l ls] eqn:E; [contradiction|].
      repeat split.
      * change (String.concat (String "010" "") ("" :: l :: ls))
          with (String "010" (String.concat (String "010" "") (l :: ls))).
        now rewrite IHjoin.
      * simpl in *. now rewrite IHlen.
      * constructor; [reflexivity|assumption].
    + pose proof (split_lines_not_nil s) as Hne.
      destruct (split_lines s) as [|l ls] eqn:E; [contradiction|].
      repeat split.
      * destruct ls as [|l' ls]; simpl in *; now rewrite IHjoin.
      * exact IHlen.
      * inversion IHfree as [|? ? Hl Hls]; subst.
        constructor; [|assumption]. simpl.
        destruct (Ascii.eqb_spec c "010"); [contradiction|exact Hl].
Qed.

(** ** find_django_apps and the entry point *)

(** X17.  Without a [settings.py] anywhere below the working directory the
    discovery returns no app, whatever else the tree holds, and the script
    then returns without a model: nothing is scanned or written. *)
Theorem no_settings_no_output d w :
  rglob d "settings.py" = [] ->
  find_django_apps d = Ok [] /\ main d w = Ok None.
Proof.
  intros H. unfold main, find_django_apps. rewrite H. now split.
Qed.

Lemma no_settings_no_output_witness :
  find_django_apps Trees.bare = Ok [] /\
  main Trees.bare (Worlds.shop "now") = Ok None.
Proof.
  apply (no_settings_no_output Trees.bare (Worlds.shop "now")).
  reflexivity.
Defined.

(** X18.  When the tree holds a [settings.py] and at least one [apps.py],
    the apps are the parent directories of the [apps.py] files, in the
    order they were found and at whatever depth; the working directory is
    not listed, so a failure to list it cannot surface. *)
Theorem apps_py_takes_precedence d :
  rglob d "settings.py" <> [] -> rglob d "apps.py" <> [] ->
  find_django_apps d = Ok (map parent (rglob d "apps.py")) /\
  forall d', rglob d' = rglob d -> find_django_apps d' = find_django_apps d.
Proof.
  intros Hset Hap.
  assert (H : forall d0, rglob d0 = rglob d ->
            find_django_apps d0 = Ok (map parent (rglob d "apps.py"))).
  { intros d0 Hd0. unfold find_django_apps. rewrite Hd0.
    destruct (rglob d "settings.py"); [contradiction|].
    destruct (rglob d "apps.py"); [contradiction|]. reflexivity. }
  split; [now apply H|]. intros d' Hd'. now rewrite (H d'), (H d).
Qed.

Lemma apps_py_takes_precedence_witness :
  find_django_apps Trees.project = Ok [["shop"]; ["site"; "blog"]] /\
  forall d', rglob d' = rglob Trees.project ->
             find_django_apps d' = find_django_apps Trees.project.
Proof.
  apply (apps_py_takes_precedence Trees.project); discriminate.
Defined.

Lemma find_django_apps_fallback d :
  rglob d "settings.py" <> [] -> rglob d "apps.py" = [] ->
  find_django_apps d =
  (entries <- iterdir d [] ;; collect (fallback_step d) entries).
Proof.
  intros Hset Hap. unfold find_django_apps. rewrite Hap.
  destruct (rglob d "settings.py"); [contradiction|]. simpl.
  destruct (iterdir d []) as [entries|e]; simpl; [|reflexivity].
  rewrite (for_each_collect (fallback_step d)).
  - now destruct (collect (fallback_step d) entries).
  - intros acc x. unfold fallback_step.
    destruct (is_candidate d x); simpl; [|now rewrite app_nil_r].
    destruct (iterdir d x) as [files|e]; simpl; [|reflexivity].
    destruct (existsb (is_py_file d) files); simpl;
      [reflexivity|now rewrite app_nil_r].
Qed.

Lemma collect_fallback_in d entries : forall apps a,
  collect (fallback_step d) entries = Ok apps ->
  (In a apps <->
   In a entries /\ is_candidate d a = true /\
   exists files, iterdir d a = Ok files /\
                 existsb (is_py_file d) files = true).
Proof.
  induction entries as [|x entries IH]; intros apps a H; simpl in H.
  - injection H as <-. simpl. tauto.
  - destruct (fallback_step d x) as [r|e] eqn:Hx; simpl in H; [|discriminate].
    destruct (collect (fallback_step d) entries) as [rest|e]; simpl in H;
      [|discriminate].
    injection H as <-. rewrite in_app_iff, (IH rest a eq_refl). simpl.
    unfold fallback_step in Hx.
    destruct (is_candidate d x) eqn:Hc.
    + destruct (iterdir d x) as [files|e] eqn:Hfiles; simpl in Hx;
        [|discriminate].
      destruct (existsb (is_py_file d) files) eqn:Hpy;
        injection Hx as <-; simpl.
      * split.
        -- intros [[<-|[]]|H]; [|tauto].
           split; [now left|]. split; [assumption|]. now exists files.
        -- intros ([<-|Hin] & Hrest); [left; now left|right; now split].
      * split; [intros [[]|H]; tauto|].
        intros ([<-|Hin] & Hca & files' & Hf' & Hpy').
        -- rewrite Hfiles in Hf'. injection Hf' as <-. congruence.
        -- right. split; [assumption|]. split; [assumption|].
           now exists files'.
    + injection Hx as <-. simpl. split; [intros [[]|H]; tauto|].
      intros ([<-|Hin] & Hca & Hrest); [congruence|].
      right. split; [assumption|]. now split.
Qed.

(** X19.  Fallback discovery (a [settings.py] but no [apps.py]): when it
    returns, the apps are exactly the entries of the working directory
    that are directories, whose name starts neither with a dot nor with two
    underscores, and that directly hold a regular file with suffix [.py];
    nothing nested deeper is ever returned. *)
Theorem fallback_apps_characterised d apps :
  rglob d "settings.py" <> [] -> rglob d "apps.py" = [] ->
  find_django_apps d = Ok apps ->
  exists names,
    listdir d [] = Ok names /\
    forall a,
      In a apps <->
      exists name files,
        a = [name] /\ In name names /\
        is_dir d [name] = true /\
        startswith name "." = false /\ startswith name "__" = false /\
        listdir d [name] = Ok files /\
        exists f, In f files /\ is_file d [name; f] = true /\
                  suffix f = ".py".
Proof.
  intros Hset Hap H. rewrite find_django_apps_fallback in H by assumption.
  unfold iterdir at 1 in H.
  destruct (listdir d []) as [names|e] eqn:Hnames; simpl in H; [|discriminate].
  exists names. split; [reflexivity|]. intros a.
  rewrite (collect_fallback_in d _ apps a H). split.
  - intros (Hin & Hc & files & Hfiles & Hpy).
    apply in_map_iff in Hin as (name & <- & Hname). simpl in *.
    unfold iterdir in Hfiles.
    destruct (listdir d [name]) as [fs|e] eqn:Hfs; simpl in Hfiles;
      [|discriminate].
    injection Hfiles as <-.
    apply existsb_exists in Hpy as (file & Hfile & Hpy).
    apply in_map_iff in Hfile as (f & <- & Hf).
    unfold is_py_file in Hpy. apply andb_true_iff in Hpy as [Hisf Hsuf].
    apply String.eqb_eq in Hsuf.
    unfold is_candidate in Hc.
    apply andb_true_iff in Hc as [Hc Hunder].
    apply andb_true_iff in Hc as [Hdir Hdot].
    apply negb_true_iff in Hunder, Hdot.
    exists name, fs. repeat split; try assumption.
    exists f. now repeat split.
  - intros (name & fs & -> & Hname & Hdir & Hdot & Hunder & Hfs
            & f & Hf & Hisf & Hsuf).
    split; [apply in_map_iff; now exists name|].
    split.
    + unfold is_candidate. change (path_name [name]) with name.
      now rewrite Hdir, Hdot, Hunder.
    + exists (map (fun n => [name] ++ [n]) fs). split.
      * unfold iterdir. now rewrite Hfs.
      * apply existsb_exists. exists [name; f].
        split; [apply in_map_iff; now exists f|].
        unfold is_py_file. change (path_name [name; f]) with f.
        rewrite Hisf, Hsuf. reflexivity.
Qed.

Lemma fallback_apps_characterised_witness :
  exists names,
    listdir Trees.plain [] = Ok names /\
    forall a,
      In a [["shop"]] <->
      exists name files,
        a = [name] /\ In name names /\
        is_dir Trees.plain [name] = true /\
        startswith name "." = false /\ startswith name "__" = false /\
        listdir Trees.plain [name] = Ok files /\
        exists f, In f files /\ is_file Trees.plain [name; f] = true /\
                  suffix f = ".py".
Proof.
  apply (fallback_apps_characterised Trees.plain [["shop"]]).
  - discriminate.
  - reflexivity.
  - reflexivity.
Defined.

(** ** Which files count as Python modules *)

Lemma length_append_string a b :
  String.length (a ++ b)%string = (String.length a + String.length b)%nat.
Proof. induction a as [|c a IH]; simpl; [reflexivity|now rewrite IH]. Qed.

Lemma rfind_before_py stem :
  rfind (stem ++ ".py")%string "."%char = Some (String.length stem).
Proof.
  induction stem as [|c stem IH]; [reflexivity|].
  change (String c stem ++ ".py")%string with (String c (stem ++ ".py")%string).
  cbn [rfind String.length]. now rewrite IH.
Qed.

Lemma substring_skip a : forall m b,
  substring (String.length a) m (a ++ b)%string = substring 0 m b.
Proof. induction a as [|c a IH]; intros m b; simpl; [reflexivity|apply IH]. Qed.

Lemma substring_whole s : substring 0 (String.length s) s = s.
Proof. induction s as [|c s IH]; simpl; [reflexivity|now rewrite IH]. Qed.

Lemma substring_split i : forall s,
  (i <= String.length s)%nat ->
  s = (substring 0 i s ++ substring i (String.length s - i) s)%string.
Proof.
  induction i as [|i IH]; intros s Hi.
  - rewrite Nat.sub_0_r, substring_whole. now destruct s.
  - destruct s as [|c s]; simpl in *; [lia|].
    f_equal. apply IH. lia.
Qed.

(** X20.  In the fallback test a directory entry counts as a Python file by
    its suffix being [.py], which holds exactly when its name is a
    non-empty stem followed by [.py]; an entry named just [.py] does not
    count. *)
Theorem suffix_py_iff name :
  suffix name = ".py" <->
  exists stem, stem <> "" /\ name = (stem ++ ".py")%string.
Proof.
  unfold suffix. split.
  - destruct (rfind name ".") as [i|] eqn:Hi; [|discriminate].
    destruct (Nat.ltb_spec 0 i) as [Hpos|]; [|discriminate].
    destruct (Nat.ltb_spec i (String.length name - 1)) as [Hlt|];
      [|discriminate].
    simpl. intros Hsub.
    exists (substring 0 i name). split.
    + destruct name as [|c name]; [simpl in Hlt; lia|].
      destruct i as [|i]; [lia|]. discriminate.
    + rewrite <- Hsub. apply substring_split. lia.
  - intros (stem & Hne & ->).
    rewrite rfind_before_py, length_append_string.
    destruct stem as [|c stem]; [contradiction|].
    destruct (Nat.ltb_spec 0 (String.length (String c stem)));
      [|simpl in *; lia].
    destruct (Nat.ltb_spec (String.length (String c stem))
                (String.length (String c stem) + String.length ".py" - 1));
      [|simpl in *; lia].
    cbn [andb].
    replace (String.length (String c stem) + String.length ".py"
             - String.length (String c stem))%nat with 3%nat
      by (simpl; lia).
    now rewrite substring_skip.
Qed.

(** ** Determinism: identities and the clock do not reach the output *)

Lemma kind_renumber f n : kind (renumber f n) = kind n.
Proof. now destruct n. Qed.

Lemma children_renumber f n :
  children (renumber f n) = map (renumber f) (children n).
Proof. now destruct n. Qed.

Lemma walk_queue_renumber f q :
  walk_queue (map (renumber f) q) = map (renumber f) (walk_queue q).
Proof.
  funelim (walk_queue q); simp walk_queue; [reflexivity|].
  cbn [map]. simp walk_queue. rewrite children_renumber, <- map_app.
  f_equal. apply H.
Qed.

Lemma walk_renumber f t : walk (renumber f t) = map (renumber f) (walk t).
Proof. unfold walk. now rewrite <- walk_queue_renumber. Qed.

Lemma is_function_like_renumber f n :
  is_function_like (renumber f n) = is_function_like n.
Proof. unfold is_function_like. now rewrite kind_renumber. Qed.

Lemma is_class_renumber f n : is_class (renumber f n) = is_class n.
Proof. unfold is_class. now rewrite kind_renumber. Qed.

Lemma is_declaration_renumber f n :
  is_declaration (renumber f n) = is_declaration n.
Proof.
  unfold is_declaration.
  now rewrite is_function_like_renumber, is_class_renumber.
Qed.

Lemma method_of_renumber ls f n : method_of ls (renumber f n) = method_of ls n.
Proof.
  unfold method_of, node_name, is_async_def, node_pos.
  now rewrite kind_renumber.
Qed.

Lemma imports_of_renumber f n : imports_of (renumber f n) = imports_of n.
Proof. unfold imports_of. now rewrite kind_renumber. Qed.

Lemma map_filter_through {A B} (h : A -> A) (g : A -> B) (p : A -> bool) l :
  (forall x, g (h x) = g x) -> (forall x, p (h x) = p x) ->
  map g (filter p (map h l)) = map g (filter p l).
Proof.
  intros Hg Hp. induction l as [|x l IH]; simpl; [reflexivity|].
  rewrite Hp. destruct (p x); simpl; now rewrite ?Hg, IH.
Qed.

Lemma methods_below_renumber ls f n :
  methods_below ls (renumber f n) = methods_below ls n.
Proof.
  unfold methods_below. rewrite children_renumber, walk_queue_renumber.
  apply map_filter_through.
  - apply method_of_renumber.
  - apply is_function_like_renumber.
Qed.

Lemma item_by_shape_renumber ls f n :
  item_by_shape ls (renumber f n) = item_by_shape ls n.
Proof.
  unfold item_by_shape, node_name, is_async_def, node_pos.
  now rewrite is_class_renumber, kind_renumber, methods_below_renumber.
Qed.

(** With distinct objects the identity test is idle, and the items can be
    read off the tree with its identities erased. *)
Lemma extract_by_shape t src :
  distinct_objects t ->
  extract_functions_classes (Some t) src =
  Ok (map (item_by_shape (source_lines_of src))
          (filter is_declaration (walk (strip_ids t)))).
Proof.
  intros Hid. rewrite extract_functions_classes_ok. f_equal.
  unfold strip_ids. rewrite walk_renumber.
  rewrite (map_filter_through (renumber (fun _ => O)));
    [|apply item_by_shape_renumber|apply is_declaration_renumber].
  apply map_ext_in. intros n Hn. apply filter_In in Hn as [Hn _].
  apply walk_in_all_nodes in Hn.
  unfold item_of, item_by_shape. destruct (is_class n) eqn:Hc; [|reflexivity].
  now rewrite (methods_of_descendants _ t n Hid Hn Hc).
Qed.

Lemma imports_by_shape {P} t src (file_path : P) :
  find_imports_and_relations (Some t) src file_path =
  Ok (flat_map imports_of (walk (strip_ids t))).
Proof.
  rewrite find_imports_and_relations_ok. f_equal.
  unfold strip_ids. rewrite walk_renumber, flat_map_after_map.
  apply flat_map_ext. intros n. now rewrite imports_of_renumber.
Qed.

Lemma scan_file_rerun w1 w2 p :
  resolve w1 p = resolve w2 p ->
  open_read w1 p = open_read w2 p ->
  (forall s, parsers_agree w1 w2 s) ->
  scan_file w1 p = scan_file w2 p.
Proof.
  intros Hres Hread Hparse. unfold scan_file, parse_code.
  rewrite Hread, Hres.
  destruct (open_read w2 p) as [s|e]; [|reflexivity].
  specialize (Hparse s). unfold parsers_agree in Hparse.
  cbn [bind].
  destruct (ast_parse w1 s) as [t1|e1], (ast_parse w2 s) as [t2|e2];
    try contradiction.
  - destruct Hparse as (Hsame & Hid1 & Hid2). cbn [bind try_except].
    rewrite (extract_by_shape t1 (Some s) Hid1),
            (extract_by_shape t2 (Some s) Hid2),
            (imports_by_shape t1 (Some s) p),
            (imports_by_shape t2 (Some s) p).
    unfold same_up_to_identity in Hsame. now rewrite Hsame.
  - now subst e2.
Qed.

(** C9.  Two runs on the same files differ in what the clock reads and in
    where the parser allocates its nodes, and in nothing else.  The items
    and imports extracted from two trees that differ only in the identities
    of their objects are equal; hence two such runs give the same record
    for every file and end alike, with the same apps: only the timestamp
    may differ. *)
Theorem scan_independent_of_clock_and_identities w1 w2 :
  (forall p, rglob_py w1 p = rglob_py w2 p) ->
  (forall p, resolve w1 p = resolve w2 p) ->
  (forall p, open_read w1 p = open_read w2 p) ->
  (forall o, open_write w1 o = open_write w2 o) ->
  (forall s, parsers_agree w1 w2 s) ->
  (forall t1 t2 src (p1 p2 : path),
     same_up_to_identity t1 t2 ->
     distinct_objects t1 -> distinct_objects t2 ->
     extract_functions_classes (Some t1) src =
     extract_functions_classes (Some t2) src /\
     find_imports_and_relations (Some t1) src p1 =
     find_imports_and_relations (Some t2) src p2) /\
  (forall p, scan_file w1 p = scan_file w2 p) /\
  (forall roots out,
     same_outcome (generate_project_structure_json w1 roots out)
                  (generate_project_structure_json w2 roots out)).
Proof.
  intros Hglob Hres Hread Hwrite Hparse.
  assert (Hfile : forall p, scan_file w1 p = scan_file w2 p).
  { intros p. now apply scan_file_rerun. }
  split; [|split; [exact Hfile|]].
  - intros t1 t2 src p1 p2 Hsame Hid1 Hid2.
    rewrite (extract_by_shape t1 src Hid1), (extract_by_shape t2 src Hid2),
            (imports_by_shape t1 src p1), (imports_by_shape t2 src p2).
    unfold same_up_to_identity in Hsame. now rewrite Hsame.
  - intros roots out.
    assert (Hfiles : forall ps, scan_files w1 ps = scan_files w2 ps).
    { intros ps. unfold scan_files. apply for_each_ext_in.
      intros acc x _. now rewrite Hfile. }
    destruct roots as [|r roots]; [exact I|].
    rewrite !generate_unfold by discriminate.
    assert (Happs : forall rs,
              collect (app_step w1) rs = collect (app_step w2) rs).
    { induction rs as [|x rs IH]; simpl; [reflexivity|].
      unfold app_step at 1 3. now rewrite Hglob, Hfiles, IH. }
    rewrite Happs, Hwrite.
    destruct (collect (app_step w2) (r :: roots)) as [apps|e]; simpl;
      [|reflexivity].
    destruct (open_write w2 out); reflexivity.
Qed.

Lemma rerun_parsers_agree s :
  parsers_agree (Worlds.shop "2024-01-01T00:00:00") Rerun.shop s.
Proof.
  unfold parsers_agree. cbn [ast_parse Worlds.shop Rerun.shop].
  unfold Rerun.toy_parse, Worlds.toy_parse.
  destruct (String.eqb s Samples.views_source).
  - cbn [bind]. split; [reflexivity|]. split; [exact views_tree_distinct|].
    intros a b Ha Hb Hid. simpl in Ha, Hb.
    repeat (destruct Ha as [<-|Ha]; [|]);
      try contradiction;
      repeat (destruct Hb as [<-|Hb]; [|]);
      try contradiction; try reflexivity; discriminate Hid.
  - destruct (String.eqb s "").
    + cbn [bind]. split; [reflexivity|].
      split; intros a b [<-|[]] [<-|[]] _; reflexivity.
    + reflexivity.
Qed.

Lemma scan_independent_of_clock_and_identities_witness :
  scan_file (Worlds.shop "2024-01-01T00:00:00") ["shop"; "views.py"]
  = scan_file Rerun.shop ["shop"; "views.py"] /\
  same_outcome
    (generate_project_structure_json (Worlds.shop "2024-01-01T00:00:00")
                                     [["shop"]] "out.json")
    (generate_project_structure_json Rerun.shop [["shop"]] "out.json").
Proof.
  destruct (scan_independent_of_clock_and_identities
              (Worlds.shop "2024-01-01T00:00:00") Rerun.shop
              (fun _ => eq_refl) (fun _ => eq_refl) (fun _ => eq_refl)
              (fun _ => eq_refl) rerun_parsers_agree)
    as (_ & Hfile & Hrun).
  split; [apply Hfile|apply Hrun].
Defined.
